(** * Grounding DINO: hyperparameter schema and subtask entry point

    A shallow embedding of
    - [nvidia_tao_pytorch/cv/grounding_dino/config/model.py]
      (the dataclass [GDINOModelConfig] and its field-builder calls), and
    - [nvidia_tao_pytorch/cv/grounding_dino/entrypoint/grounding_dino.py]
      (the [main] wrapper around the generic subtask launcher).

    Python values are a small inductive type; a builder call is the builder's
    name with its keyword arguments in source order; a dataclass instance is
    a finite map from attribute names to values.  Float literals are kept as
    the decimal fractions written in the source. *)

From Stdlib Require Import ZArith QArith Ascii String List Bool Lia.
From stdpp Require Import gmap strings list.

Open Scope string_scope.

(** ** Python values, annotations and builder calls *)

#[warnings="-register-all"]
Inductive pyval : Type :=
| PNone
| PBool (b : bool)
| PInt (z : Z)
| PFloat (q : Q)
| PStr (s : string)
| PList (l : list pyval).

Inductive pytype : Type :=
| TInt
| TFloat
| TBool
| TStr
| TOptional (t : pytype)
| TList (t : pytype).

(** The five builders imported from [nvidia_tao_pytorch.config.types]. *)
Inductive builder : Type :=
| BOOL_FIELD
| FLOAT_FIELD
| INT_FIELD
| LIST_FIELD
| STR_FIELD.

(** A call [INT_FIELD(value=900, valid_min=1, ...)]: keyword arguments only,
    kept in the order in which the source writes them. *)
Record field_call : Type := Call {
  call_builder : builder;
  call_kwargs : list (string * pyval)
}.

(** One annotated class attribute: [name: annotation = BUILDER(...)]. *)
Record attr : Type := Attr {
  attr_name : string;
  attr_type : pytype;
  attr_init : field_call
}.

Fixpoint assoc {A : Type} (k : string) (l : list (string * A)) : option A :=
  match l with
  | [] => None
  | (k', v) :: rest => if String.eqb k k' then Some v else assoc k rest
  end.

Definition kwarg (c : field_call) (k : string) : option pyval :=
  assoc k (call_kwargs c).

(** The argument that carries the value: [arrList] for [LIST_FIELD],
    [value] for the other four builders. *)
Definition call_value (c : field_call) : option pyval :=
  match call_builder c with
  | LIST_FIELD => kwarg c "arrList"
  | _ => kwarg c "value"
  end.

Definition is_numeric_builder (b : builder) : bool :=
  match b with
  | INT_FIELD | FLOAT_FIELD => true
  | _ => false
  end.

Definition as_number (v : pyval) : option Q :=
  match v with
  | PInt z => Some (inject_Z z)
  | PFloat q => Some q
  | _ => None
  end.

(** ** [str.join] and [str.split] *)

(** [sep.join(l)] *)
Fixpoint join (sep : string) (l : list string) : string :=
  match l with
  | [] => EmptyString
  | [x] => x
  | x :: rest => x +:+ sep +:+ join sep rest
  end.

(** [s.split(c)] for a one-character separator: the empty string splits into
    one empty piece, and every occurrence of [c] starts a new piece. *)
Fixpoint split (c : ascii) (s : string) : list string :=
  match s with
  | EmptyString => [EmptyString]
  | String a s' =>
      if Ascii.eqb a c then EmptyString :: split c s'
      else match split c s' with
           | [] => [String a EmptyString]
           | w :: ws => String a w :: ws
           end
  end.

Fixpoint contains_char (c : ascii) (s : string) : bool :=
  match s with
  | EmptyString => false
  | String a s' => Ascii.eqb a c || contains_char c s'
  end.

Definition comma : ascii := "," % char.

(** The option set that a comma-joined [valid_options] string denotes. *)
Definition options_of (s : string) : list string := split comma s.

(** ** Predicate strings such as ["> 0.0"] and ["!= 0"] *)

Inductive cmp_op : Type := OpLt | OpLe | OpGt | OpGe | OpEq | OpNe.

Definition parse_op (s : string) : option cmp_op :=
  if String.eqb s "<" then Some OpLt
  else if String.eqb s "<=" then Some OpLe
  else if String.eqb s ">" then Some OpGt
  else if String.eqb s ">=" then Some OpGe
  else if String.eqb s "==" then Some OpEq
  else if String.eqb s "!=" then Some OpNe
  else None.

Definition digit_of (a : ascii) : option Z :=
  let n := N_of_ascii a in
  if (48 <=? n)%N && (n <=? 57)%N then Some (Z.of_N n - 48)%Z else None.

Fixpoint parse_digits (s : string) (acc : Z) : option Z :=
  match s with
  | EmptyString => Some acc
  | String a s' =>
      match digit_of a with
      | Some d => parse_digits s' (10 * acc + d)%Z
      | None => None
      end
  end.

Definition parse_nat (s : string) : option Z :=
  match s with
  | EmptyString => None
  | _ => parse_digits s 0%Z
  end.

Definition parse_unsigned (s : string) : option Q :=
  match split "." s with
  | [i] => inject_Z <$> parse_nat i
  | [i; f] =>
      match parse_nat i, parse_nat f with
      | Some zi, Some zf =>
          Some (inject_Z zi + inject_Z zf / inject_Z (10 ^ Z.of_nat (String.length f)))%Q
      | _, _ => None
      end
  | _ => None
  end.

Definition parse_number (s : string) : option Q :=
  match s with
  | String "-" r => Qopp <$> parse_unsigned r
  | _ => parse_unsigned s
  end.

Definition parse_math_cond (s : string) : option (cmp_op * Q) :=
  match split " " s with
  | [o; n] =>
      match parse_op o, parse_number n with
      | Some op, Some q => Some (op, q)
      | _, _ => None
      end
  | _ => None
  end.

Definition Qlt_bool (x y : Q) : bool := negb (Qle_bool y x).

Definition cmp_holds (op : cmp_op) (x y : Q) : bool :=
  match op with
  | OpLt => Qlt_bool x y
  | OpLe => Qle_bool x y
  | OpGt => Qlt_bool y x
  | OpGe => Qle_bool y x
  | OpEq => Qeq_bool x y
  | OpNe => negb (Qeq_bool x y)
  end.

(** Modelled from the spec: the tooling that evaluates [math_cond] is not in
    the source tree; the spec calls it a predicate string evaluated against
    the value, with ["> 0.0"] and ["!= 0"] as its examples.  [None] means
    the string is not of the shape [OP NUMBER]. *)
Definition math_cond_holds (cond : string) (x : Q) : option bool :=
  match parse_math_cond cond with
  | Some (op, y) => Some (cmp_holds op x y)
  | None => None
  end.

(** ** Declared bounds *)

Definition above_min (c : field_call) (x : Q) : Prop :=
  forall lo, kwarg c "valid_min" = Some lo ->
    exists ql, as_number lo = Some ql /\ (ql <= x)%Q.

(** [valid_max="inf"] is the unbounded sentinel. *)
Definition below_max (c : field_call) (x : Q) : Prop :=
  forall hi, kwarg c "valid_max" = Some hi ->
    hi = PStr "inf" \/ exists qh, as_number hi = Some qh /\ (x <= qh)%Q.

Definition satisfies_math_cond (c : field_call) (x : Q) : Prop :=
  forall cond, kwarg c "math_cond" = Some cond ->
    exists s, cond = PStr s /\ math_cond_holds s x = Some true.

Definition above_minb (c : field_call) (x : Q) : bool :=
  match kwarg c "valid_min" with
  | None => true
  | Some lo =>
      match as_number lo with
      | Some ql => Qle_bool ql x
      | None => false
      end
  end.

Definition below_maxb (c : field_call) (x : Q) : bool :=
  match kwarg c "valid_max" with
  | None => true
  | Some (PStr s) => String.eqb s "inf"
  | Some hi =>
      match as_number hi with
      | Some qh => Qle_bool x qh
      | None => false
      end
  end.

Definition satisfies_math_condb (c : field_call) (x : Q) : bool :=
  match kwarg c "math_cond" with
  | None => true
  | Some (PStr s) =>
      match math_cond_holds s x with
      | Some b => b
      | None => false
      end
  | Some _ => false
  end.

(** Bounds are well formed when the lower bound does not exceed a finite
    upper bound. *)
Definition bounds_well_formed (c : field_call) : Prop :=
  forall lo hi,
    kwarg c "valid_min" = Some lo -> kwarg c "valid_max" = Some hi ->
    hi = PStr "inf" \/
    exists ql qh, as_number lo = Some ql /\ as_number hi = Some qh /\ (ql <= qh)%Q.

Definition bounds_well_formedb (c : field_call) : bool :=
  match kwarg c "valid_min", kwarg c "valid_max" with
  | Some lo, Some (PStr s) => String.eqb s "inf"
  | Some lo, Some hi =>
      match as_number lo, as_number hi with
      | Some ql, Some qh => Qle_bool ql qh
      | _, _ => false
      end
  | _, _ => true
  end.

(** A numeric builder call is consistent when its declared value is a number
    that meets the declared bounds and the declared math condition. *)
Definition declared_value_ok (c : field_call) : Prop :=
  exists v x, call_value c = Some v /\ as_number v = Some x /\
    above_min c x /\ below_max c x /\ satisfies_math_cond c x.

Definition declared_value_okb (c : field_call) : bool :=
  match call_value c with
  | Some v =>
      match as_number v with
      | Some x => above_minb c x && below_maxb c x && satisfies_math_condb c x
      | None => false
      end
  | None => false
  end.


(** ** The schema of [GDINOModelConfig] *)

Section Schema.

(** [list(swin_model_dict.keys())]: the Swin table lives in
    [grounding_dino/model/swin_transformer.py], outside this fragment, so the
    list of its keys is a parameter of the schema. *)
Variable swin_model_dict_keys : list string.

Definition SUPPORTED_BACKBONES : list string :=
  swin_model_dict_keys ++ ["resnet_50"].

Definition pretrained_backbone_path : attr :=
  Attr "pretrained_backbone_path" (TOptional TStr)
    (Call STR_FIELD
       [ ("value", PNone);
         ("default_value", PStr "");
         ("display_name", PStr "pretrained backbone path");
         ("description", PStr "[Optional] Path to a pretrained backbone file.") ]).

Definition backbone : attr :=
  Attr "backbone" TStr
    (Call STR_FIELD
       [ ("value", PStr "swin_tiny_224_1k");
         ("default_value", PStr "swin_tiny_224_1k");
         ("display_name", PStr "backbone");
         ("description", PStr "The backbone name of the model.
                    TAO implementation of DINO support Swin and ResNet50.");
         ("valid_options", PStr (join "," SUPPORTED_BACKBONES));
         ("popular", PStr "yes") ]).

Definition num_queries : attr :=
  Attr "num_queries" TInt
    (Call INT_FIELD
       [ ("value", PInt 900);
         ("default_value", PInt 900);
         ("description", PStr "The number of queries");
         ("display_name", PStr "number of queries");
         ("valid_min", PInt 1);
         ("valid_max", PStr "inf");
         ("automl_enabled", PStr "TRUE");
         ("popular", PStr "yes") ]).

Definition num_feature_levels : attr :=
  Attr "num_feature_levels" TInt
    (Call INT_FIELD
       [ ("value", PInt 4);
         ("default_value", PInt 4);
         ("description", PStr "The number of feature levels to use in the model");
         ("display_name", PStr "number of feature levels");
         ("valid_min", PInt 1);
         ("valid_max", PInt 5) ]).

Definition set_cost_class : attr :=
  Attr "set_cost_class" TFloat
    (Call FLOAT_FIELD
       [ ("value", PFloat 1.0);
         ("default_value", PFloat 1.0);
         ("valid_min", PFloat 0.0);
         ("valid_max", PStr "inf");
         ("description", PStr "The relative weight of the classification error in the matching cost.");
         ("display_name", PStr "Set cost classification");
         ("popular", PStr "yes") ]).

Definition set_cost_bbox : attr :=
  Attr "set_cost_bbox" TFloat
    (Call FLOAT_FIELD
       [ ("value", PFloat 5.0);
         ("default_value", PFloat 5.0);
         ("valid_min", PFloat 0.0);
         ("valid_max", PStr "inf");
         ("description", PStr "The relative weight of the L1 error of the bounding box coordinates in the matching cost.");
         ("display_name", PStr "Set cost BBox ");
         ("popular", PStr "yes") ]).

Definition set_cost_giou : attr :=
  Attr "set_cost_giou" TFloat
    (Call FLOAT_FIELD
       [ ("value", PFloat 2.0);
         ("default_value", PFloat 2.0);
         ("valid_min", PFloat 0.0);
         ("valid_max", PStr "inf");
         ("description", PStr "The relative weight of the GIoU loss of the bounding box in the matching cost.");
         ("display_name", PStr "Set cost GIoU");
         ("popular", PStr "yes") ]).

Definition cls_loss_coef : attr :=
  Attr "cls_loss_coef" TFloat
    (Call FLOAT_FIELD
       [ ("value", PFloat 2.0);
         ("default_value", PFloat 2.0);
         ("valid_min", PFloat 0.0);
         ("valid_max", PStr "inf");
         ("description", PStr "The relative weight of the classification error in the final loss.");
         ("display_name", PStr "Class loss coefficient");
         ("popular", PStr "yes") ]).

Definition bbox_loss_coef : attr :=
  Attr "bbox_loss_coef" TFloat
    (Call FLOAT_FIELD
       [ ("value", PFloat 5.0);
         ("default_value", PFloat 5.0);
         ("valid_min", PFloat 0.0);
         ("valid_max", PStr "inf");
         ("description", PStr "The relative weight of the L1 error of the bounding box coordinates in the final loss.");
         ("display_name", PStr "BBox loss coefficient");
         ("popular", PStr "yes") ]).

Definition giou_loss_coef : attr :=
  Attr "giou_loss_coef" TFloat
    (Call FLOAT_FIELD
       [ ("value", PFloat 2.0);
         ("default_value", PFloat 2.0);
         ("valid_min", PFloat 0.0);
         ("valid_max", PStr "inf");
         ("description", PStr "The relative weight of the GIoU loss of the bounding box in the final loss.");
         ("display_name", PStr "GIoU loss coefficient");
         ("popular", PStr "yes") ]).

Definition num_select : attr :=
  Attr "num_select" TInt
    (Call INT_FIELD
       [ ("value", PInt 300);
         ("default_value", PInt 300);
         ("description", PStr "The number of top-K predictions selected during post-process");
         ("display_name", PStr "num select");
         ("valid_min", PInt 1);
         ("automl_enabled", PStr "TRUE");
         ("popular", PStr "yes") ]).

Definition interm_loss_coef : attr :=
  Attr "interm_loss_coef" TFloat
    (Call FLOAT_FIELD
       [ ("value", PFloat 1.0);
         ("display_name", PStr "intermediate loss coefficient") ]).

Definition no_interm_box_loss : attr :=
  Attr "no_interm_box_loss" TBool
    (Call BOOL_FIELD
       [ ("value", PBool false);
         ("default_value", PBool false);
         ("description", PStr "No intermediate bbox loss.");
         ("display_name", PStr "no interm bbox loss") ]).

Definition pre_norm : attr :=
  Attr "pre_norm" TBool
    (Call BOOL_FIELD
       [ ("value", PBool false);
         ("default_value", PBool false);
         ("description", PStr "Flag to add layer norm in the encoder or not.");
         ("display_name", PStr "Pre norm") ]).

Definition two_stage_type : attr :=
  Attr "two_stage_type" TStr
    (Call STR_FIELD
       [ ("value", PStr "standard");
         ("default_value", PStr "standard");
         ("valid_options", PStr (join "," ["standard"; "no"]));
         ("description", PStr "Type of two stage in DINO");
         ("display_name", PStr "two stage type") ]).

Definition decoder_sa_type : attr :=
  Attr "decoder_sa_type" TStr
    (Call STR_FIELD
       [ ("value", PStr "sa");
         ("default_value", PStr "sa");
         ("description", PStr "Type of decoder self attention.");
         ("valid_options", PStr (join "," ["sa"; "ca_label"; "ca_content"]));
         ("display_name", PStr "decoder self-attention type") ]).

Definition embed_init_tgt : attr :=
  Attr "embed_init_tgt" TBool
    (Call BOOL_FIELD
       [ ("value", PBool true);
         ("default_value", PBool true);
         ("description", PStr "Flag to add target embedding");
         ("display_name", PStr "embed init target") ]).

Definition fix_refpoints_hw : attr :=
  Attr "fix_refpoints_hw" TInt
    (Call INT_FIELD
       [ ("value", PInt (-1));
         ("default_value", PInt (-1));
         ("valid_min", PInt (-2));
         ("valid_max", PStr "inf");
         ("description", PStr "If this value is -1, width and height are learned seperately for each box.
                    If this value is -2, a shared width and height are learned.
                    A value greater than 0 specifies learning with a fixed number.");
         ("math_cond", PStr "!= 0");
         ("display_name", PStr "fix refpoints hw") ]).

Definition pe_temperatureH : attr :=
  Attr "pe_temperatureH" TInt
    (Call INT_FIELD
       [ ("value", PInt 20);
         ("default_value", PInt 20);
         ("description", PStr "The temperature applied to the height dimension of the positional sine embedding.");
         ("display_name", PStr "pe_temperatureH");
         ("valid_min", PInt 1);
         ("valid_max", PStr "inf") ]).

Definition pe_temperatureW : attr :=
  Attr "pe_temperatureW" TInt
    (Call INT_FIELD
       [ ("value", PInt 20);
         ("default_value", PInt 20);
         ("description", PStr "The temperature applied to the width dimension of the positional sine embedding.");
         ("display_name", PStr "pe_temperatureW");
         ("valid_min", PInt 1);
         ("valid_max", PStr "inf") ]).

Definition return_interm_indices : attr :=
  Attr "return_interm_indices" (TList TInt)
    (Call LIST_FIELD
       [ ("arrList", PList [PInt 1; PInt 2; PInt 3; PInt 4]);
         ("description", PStr "The index of feature levels to use in the model. The length must match `num_feature_levels`.");
         ("display_name", PStr "return interim indices") ]).

Definition use_dn : attr :=
  Attr "use_dn" TBool
    (Call BOOL_FIELD
       [ ("value", PBool true);
         ("default_value", PBool true);
         ("description", PStr "A flag specifying whether to enbable contrastive de-noising training in DINO");
         ("display_name", PStr "use denoising") ]).

Definition dn_number : attr :=
  Attr "dn_number" TInt
    (Call INT_FIELD
       [ ("value", PInt 0);
         ("default_value", PInt 0);
         ("description", PStr "The number of denoising queries in DINO.");
         ("display_name", PStr "denoising number");
         ("valid_min", PInt 0);
         ("valid_max", PStr "inf") ]).

Definition dn_box_noise_scale : attr :=
  Attr "dn_box_noise_scale" TFloat
    (Call FLOAT_FIELD
       [ ("value", PFloat 1.0);
         ("default_value", PFloat 1.0);
         ("description", PStr "The scale of noise applied to boxes during contrastive de-noising. If this value is 0, noise is not applied.");
         ("display_name", PStr "Denoised boxes noise scaling");
         ("valid_min", PFloat 0.0);
         ("valid_max", PStr "inf") ]).

Definition dn_label_noise_ratio : attr :=
  Attr "dn_label_noise_ratio" TFloat
    (Call FLOAT_FIELD
       [ ("value", PFloat 0.5);
         ("default_value", PFloat 0.5);
         ("description", PStr "The scale of the noise applied to labels during
                       contrastive denoising. If this value is 0, then noise is
                       no applied.");
         ("display_name", PStr "denoise label noise ratio");
         ("valid_min", PFloat 0.0) ]).

Definition focal_alpha : attr :=
  Attr "focal_alpha" TFloat
    (Call FLOAT_FIELD
       [ ("value", PFloat 0.25);
         ("description", PStr "The alpha value in the focal loss.");
         ("display_name", PStr "focal alpha");
         ("math_cond", PStr "> 0.0") ]).

Definition focal_gamma : attr :=
  Attr "focal_gamma" TFloat
    (Call FLOAT_FIELD
       [ ("value", PFloat 2.0);
         ("description", PStr "The gamma value in the focal loss.");
         ("display_name", PStr "focal gamma");
         ("math_cond", PStr "> 0.0") ]).

Definition clip_max_norm : attr :=
  Attr "clip_max_norm" TFloat
    (Call FLOAT_FIELD
       [ ("value", PFloat 0.1);
         ("display_name", PStr "clip max norm");
         ("description", PStr "") ]).

Definition nheads : attr :=
  Attr "nheads" TInt
    (Call INT_FIELD
       [ ("value", PInt 8);
         ("default_value", PInt 8);
         ("description", PStr "Number of heads");
         ("display_name", PStr "nheads") ]).

Definition dropout_ratio : attr :=
  Attr "dropout_ratio" TFloat
    (Call FLOAT_FIELD
       [ ("value", PFloat 0.0);
         ("default_value", PFloat 0.0);
         ("description", PStr "The probability to drop hidden units.");
         ("display_name", PStr "drop out ratio");
         ("valid_min", PFloat 0.0);
         ("valid_max", PFloat 1.0) ]).

Definition hidden_dim : attr :=
  Attr "hidden_dim" TInt
    (Call INT_FIELD
       [ ("value", PInt 256);
         ("default_value", PInt 256);
         ("description", PStr "Dimension of the hidden units.");
         ("display_unit", PStr "hidden dim");
         ("automl_enabled", PStr "FALSE") ]).

Definition enc_layers : attr :=
  Attr "enc_layers" TInt
    (Call INT_FIELD
       [ ("value", PInt 6);
         ("default_value", PInt 6);
         ("description", PStr "Numer of encoder layers in the transformer");
         ("valid_min", PInt 1);
         ("automl_enabled", PStr "TRUE");
         ("display_name", PStr "encoder layers") ]).

Definition dec_layers : attr :=
  Attr "dec_layers" TInt
    (Call INT_FIELD
       [ ("value", PInt 6);
         ("default_value", PInt 6);
         ("description", PStr "Numer of decoder layers in the transformer");
         ("valid_min", PInt 1);
         ("automl_enabled", PStr "TRUE");
         ("display_name", PStr "decoder layers") ]).

Definition dim_feedforward : attr :=
  Attr "dim_feedforward" TInt
    (Call INT_FIELD
       [ ("value", PInt 2048);
         ("description", PStr "Dimension of the feedforward network");
         ("display_name", PStr "dim feedforward");
         ("valid_min", PInt 1) ]).

Definition dec_n_points : attr :=
  Attr "dec_n_points" TInt
    (Call INT_FIELD
       [ ("value", PInt 4);
         ("display_name", PStr "decoder n points");
         ("description", PStr "Number of reference points in the decoder.");
         ("valid_min", PInt 1) ]).

Definition enc_n_points : attr :=
  Attr "enc_n_points" TInt
    (Call INT_FIELD
       [ ("value", PInt 4);
         ("display_name", PStr "encoder n points");
         ("description", PStr "Number of reference points in the encoder.");
         ("valid_min", PInt 1) ]).

Definition aux_loss : attr :=
  Attr "aux_loss" TBool
    (Call BOOL_FIELD
       [ ("value", PBool true);
         ("default_value", PBool true);
         ("display_name", PStr "Train backbone");
         ("description", PStr "A flag specifying whether to use auxiliary
                    decoding losses (loss at each decoder layer)") ]).

Definition dilation : attr :=
  Attr "dilation" TBool
    (Call BOOL_FIELD
       [ ("value", PBool false);
         ("default_value", PBool false);
         ("display_name", PStr "Dilation enabled.");
         ("description", PStr "A flag specifying whether enable dilation or not in the backbone.") ]).

Definition train_backbone : attr :=
  Attr "train_backbone" TBool
    (Call BOOL_FIELD
       [ ("value", PBool true);
         ("default_value", PBool true);
         ("display_name", PStr "Train backbone");
         ("description", PStr "Flag to set backbone weights as trainable or frozen.
                    When set to `False`, the backbone weights will be frozen.") ]).

Definition text_encoder_type : attr :=
  Attr "text_encoder_type" TStr
    (Call STR_FIELD
       [ ("value", PStr "bert-base-uncased");
         ("default_value", PStr "bert-base-uncased");
         ("display_name", PStr "Text encoder type");
         ("description", PStr "BERT encoder type. If only the name of the type is provided,
                    the weight is download from the HuggingFace Hub.
                    If a path is provided, then we load the weight from the local path.") ]).

Definition max_text_len : attr :=
  Attr "max_text_len" TInt
    (Call INT_FIELD
       [ ("value", PInt 256);
         ("display_name", PStr "Maximum text length");
         ("description", PStr "Maximum text length of BERT.");
         ("valid_min", PInt 1) ]).

Definition class_embed_bias : attr :=
  Attr "class_embed_bias" TBool
    (Call BOOL_FIELD
       [ ("value", PBool false);
         ("default_value", PBool false);
         ("display_name", PStr "Class embedding bias");
         ("description", PStr "Flag to set bias in the contrastive embedding.") ]).

Definition log_scale : attr :=
  Attr "log_scale" (TOptional TStr)
    (Call STR_FIELD
       [ ("value", PNone);
         ("default_value", PStr "none");
         ("display_name", PStr "log scale");
         ("description", PStr "[Optional] The initial value of a learnable parameter to multiply with the similarity
                    matrix to normalize the output. Defaults to None.
                    - If set to 'auto', the similarity matrix will be normalized by
                    a fixed value ``sqrt(d_c)`` where ``d_c`` is the channel number.
                    - If set to 'none' or ``None``, there is no normalization applied.") ]).

Definition loss_types : attr :=
  Attr "loss_types" (TList TStr)
    (Call LIST_FIELD
       [ ("arrList", PList [PStr "labels"; PStr "boxes"]);
         ("description", PStr "Losses to be used during training");
         ("display_name", PStr "loss_types") ]).

Definition backbone_names : attr :=
  Attr "backbone_names" (TList TStr)
    (Call LIST_FIELD
       [ ("arrList", PList [PStr "backbone.0"; PStr "bert"]);
         ("description", PStr "Prefix of the tensor names corresponding to the backbone.");
         ("display_name", PStr "Backbone tensor name prefix") ]).

Definition linear_proj_names : attr :=
  Attr "linear_proj_names" (TList TStr)
    (Call LIST_FIELD
       [ ("arrList", PList [PStr "reference_points"; PStr "sampling_offsets"]);
         ("display_name", PStr "linear projection names");
         ("description", PStr "Linear projection layer names.") ]).

Definition fields : list attr :=
  [ pretrained_backbone_path;
    backbone;
    num_queries;
    num_feature_levels;
    set_cost_class;
    set_cost_bbox;
    set_cost_giou;
    cls_loss_coef;
    bbox_loss_coef;
    giou_loss_coef;
    num_select;
    interm_loss_coef;
    no_interm_box_loss;
    pre_norm;
    two_stage_type;
    decoder_sa_type;
    embed_init_tgt;
    fix_refpoints_hw;
    pe_temperatureH;
    pe_temperatureW;
    return_interm_indices;
    use_dn;
    dn_number;
    dn_box_noise_scale;
    dn_label_noise_ratio;
    focal_alpha;
    focal_gamma;
    clip_max_norm;
    nheads;
    dropout_ratio;
    hidden_dim;
    enc_layers;
    dec_layers;
    dim_feedforward;
    dec_n_points;
    enc_n_points;
    aux_loss;
    dilation;
    train_backbone;
    text_encoder_type;
    max_text_len;
    class_embed_bias;
    log_scale;
    loss_types;
    backbone_names;
    linear_proj_names ].

(** [@dataclass] with no arguments: in particular [frozen=False]. *)
Record dataclass : Type := Dataclass {
  dc_frozen : bool;
  dc_fields : list attr
}.

Definition GDINOModelConfig : dataclass :=
  {| dc_frozen := false; dc_fields := fields |}.

End Schema.

(** ** Instances: construction, attribute access, loading *)

Inductive pyerror : Type :=
| TypeError (msg : string)
| AttributeError (name : string)
| FrozenInstanceError (name : string).

(** An instance is its attribute dictionary. *)
Abbreviation instance := (gmap string pyval).

(** Modelled from the spec: the builders of [nvidia_tao_pytorch.config.types]
    and the loader are not in the source tree.  Per the spec, [default_value]
    is the value used when the user leaves the field unset, and it is what an
    unset field holds after load; a call that declares no [default_value]
    falls back on its [value] ([arrList] for [LIST_FIELD]), which the spec
    calls the effective value. *)
Definition field_default (a : attr) : option pyval :=
  match kwarg (attr_init a) "default_value" with
  | Some dv => Some dv
  | None => call_value (attr_init a)
  end.

Definition field_names (cls : dataclass) : list string :=
  map attr_name (dc_fields cls).

Definition known_name (cls : dataclass) (k : string) : bool :=
  existsb (String.eqb k) (field_names cls).

(** The body of the generated [__init__]: every field, in declaration order,
    takes the keyword argument of its name or else its default. *)
Fixpoint init_fields (fs : list attr) (kwargs : list (string * pyval))
    (self : instance) : pyerror + instance :=
  match fs with
  | [] => inr self
  | a :: rest =>
      match assoc (attr_name a) kwargs with
      | Some v => init_fields rest kwargs (<[attr_name a := v]> self)
      | None =>
          match field_default a with
          | Some v => init_fields rest kwargs (<[attr_name a := v]> self)
          | None => inl (TypeError "missing required argument")
          end
      end
  end.

(** Calling the class with keyword arguments [kwargs]. *)
Definition dataclass_init (cls : dataclass) (kwargs : list (string * pyval))
    : pyerror + instance :=
  if forallb (fun kv => known_name cls (fst kv)) kwargs
  then init_fields (dc_fields cls) kwargs ∅
  else inl (TypeError "unexpected keyword argument").

(** [getattr(self, name)] on the data attributes of an instance: the instance
    dictionary answers.  (For a name that the dictionary lacks Python goes on
    to the class; the class namespace is not represented here.) *)
Definition getattr (self : instance) (name : string) : pyerror + pyval :=
  match self !! name with
  | Some v => inr v
  | None => inl (AttributeError name)
  end.

(** The names that [object] guards with a descriptor of its own. *)
Definition reserved_attribute (name : string) : bool :=
  String.eqb name "__class__" || String.eqb name "__dict__" ||
  String.eqb name "__weakref__".

(** [setattr(self, name, v)].  A frozen dataclass refuses every assignment.
    Otherwise [__class__] wants a class and [__dict__] a dictionary, which no
    value of the model is, [__weakref__] is not writable, and any other name
    is stored in the instance dictionary. *)
Definition setattr (cls : dataclass) (self : instance) (name : string)
    (v : pyval) : pyerror + instance :=
  if dc_frozen cls then inl (FrozenInstanceError name)
  else if String.eqb name "__class__" then
    inl (TypeError "__class__ must be set to a class")
  else if String.eqb name "__dict__" then
    inl (TypeError "__dict__ must be set to a dictionary")
  else if String.eqb name "__weakref__" then inl (AttributeError name)
  else inr (<[name := v]> self).

Inductive operation : Type :=
| GetAttr (name : string)
| SetAttr (name : string) (v : pyval).

(** The instance after an operation (unchanged when the operation raises). *)
Definition run_operation (cls : dataclass) (self : instance) (o : operation)
    : instance :=
  match o with
  | GetAttr _ => self
  | SetAttr name v =>
      match setattr cls self name v with
      | inr self' => self'
      | inl _ => self
      end
  end.

(** Modelled from the spec: the loader is an external collaborator.  Loading
    with user overrides is instantiating the dataclass with the overrides as
    keyword arguments; a field without an override keeps its default. *)
Definition load_config (cls : dataclass) (overrides : list (string * pyval))
    : pyerror + instance :=
  dataclass_init cls overrides.

(** ** The consuming validator *)

Inductive rule : Type :=
| BoundsRule
| OptionsRule
| MathCondRule
| LengthRule.

(** A named violation: the offending field and the rule it breaks. *)
Record violation : Type := Violation {
  v_field : string;
  v_rule : rule
}.

(** Modelled from the spec: the designated unset sentinels, [None] and the
    empty string. *)
Definition is_unset (v : pyval) : bool :=
  match v with
  | PNone => true
  | PStr EmptyString => true
  | _ => false
  end.

(** Modelled from the spec: a value is acceptable for [valid_options] when it
    is unset or one of the options. *)
Definition in_options (c : field_call) (v : pyval) : bool :=
  match kwarg c "valid_options" with
  | Some (PStr opts) =>
      is_unset v ||
      match v with
      | PStr s => existsb (String.eqb s) (options_of opts)
      | _ => false
      end
  | Some _ => false
  | None => true
  end.

Definition in_boundsb (c : field_call) (v : pyval) : bool :=
  match as_number v with
  | Some x => above_minb c x && below_maxb c x
  | None => true
  end.

Definition math_cond_okb (c : field_call) (v : pyval) : bool :=
  match as_number v with
  | Some x => satisfies_math_condb c x
  | None => true
  end.

Definition report (name : string) (r : rule) (ok : bool) : list violation :=
  if ok then [] else [Violation name r].

(** Modelled from the spec: the validator is an external collaborator that
    walks all fields, checking each value against the field's own bounds,
    valid options and math condition, and reports every violation by field
    and rule. *)
Definition check_attr (self : instance) (a : attr) : list violation :=
  match self !! attr_name a with
  | Some v =>
      report (attr_name a) BoundsRule (in_boundsb (attr_init a) v) ++
      report (attr_name a) OptionsRule (in_options (attr_init a) v) ++
      report (attr_name a) MathCondRule (math_cond_okb (attr_init a) v)
  | None => []
  end.

(** Modelled from the spec: the one cross-field invariant,
    [len(return_interm_indices) == num_feature_levels]. *)
Definition cross_field_ok (self : instance) : bool :=
  match self !! "return_interm_indices", self !! "num_feature_levels" with
  | Some (PList l), Some (PInt n) => (Z.of_nat (length l) =? n)%Z
  | _, _ => false
  end.

(** Modelled from the spec: the validator reports the violations of every
    field, then the cross-field rule; a record validates when the report is
    empty. *)
Definition validate (cls : dataclass) (self : instance) : list violation :=
  flat_map (check_attr self) (dc_fields cls) ++
  report "return_interm_indices" LengthRule (cross_field_ok self).

(** ** Flags *)

Definition flag_is (c : field_call) (k : string) (yes : string) : bool :=
  match kwarg c k with
  | Some (PStr s) => String.eqb s yes
  | _ => false
  end.

(** ** The entry point *)

Record ArgumentParser : Type := {
  prog : string;
  add_help : bool;
  description : string
}.

(** What a subtask handler is called with. *)
Record invocation : Type := Invocation {
  inv_subtask : string;
  inv_args : list (string * string);
  inv_unknown_args : list string;
  inv_network : string
}.

(** A handler maps its call to an exit status. *)
Definition handler : Type := invocation -> Z.

Inductive dispatch_error : Type :=
| SubtaskDiscoveryError
| UsageError (msg : string)
| SubtaskNotFoundError (valid : list string).

(** A run: the handler calls made so far, and an error or an exit status. *)
Definition run (A : Type) : Type := list invocation * (dispatch_error + A).

Definition ret {A : Type} (x : A) : run A := ([], inr x).

Definition fail {A : Type} (e : dispatch_error) : run A := ([], inl e).

Definition bind {A B : Type} (m : run A) (k : A -> run B) : run B :=
  match m with
  | (t, inl e) => (t, inl e)
  | (t, inr x) => let '(t', r) := k x in ((t ++ t')%list, r)
  end.

Notation "'let*' x ':=' m 'in' k" := (bind m (fun x => k))
  (at level 10, x name, m at level 99, k at level 200).

Definition call_handler (h : handler) (i : invocation) : run Z :=
  ([i], inr (h i)).

(** Modelled from the spec: [get_subtasks] of
    [nvidia_tao_pytorch.core.entrypoint] is not in the source tree.
    Discovery scans the package for handlers and fails when there is none. *)
Definition get_subtasks (scripts : list (string * handler))
    : run (list (string * handler)) :=
  match scripts with
  | [] => fail SubtaskDiscoveryError
  | _ => ret scripts
  end.

(** Modelled from the spec: [command_line_parser] is not in the source tree.
    The first positional token is the subtask name; the remainder is returned
    untouched as the unknown arguments. *)
Definition command_line_parser (parser : ArgumentParser)
    (subtasks : list (string * handler)) (argv : list string)
    : run (list (string * string) * list string) :=
  match argv with
  | [] => fail (UsageError (prog parser))
  | name :: rest => ret ([("subtask", name)], rest)
  end.

(** Modelled from the spec: [launch] is not in the source tree.  It looks the
    subtask name up in the registry; an unknown name fails with the list of
    valid names, a known one transfers control to its handler. *)
Definition launch (args : list (string * string)) (unknown_args : list string)
    (subtasks : list (string * handler)) (network : string) : run Z :=
  match assoc "subtask" args with
  | None => fail (UsageError network)
  | Some name =>
      match assoc name subtasks with
      | None => fail (SubtaskNotFoundError (map fst subtasks))
      | Some h => call_handler h (Invocation name args unknown_args network)
      end
  end.

(** [get_subtask_list()], with the scripts package as an argument. *)
Definition get_subtask_list (scripts : list (string * handler))
    : run (list (string * handler)) :=
  get_subtasks scripts.

(** [main()], with the scripts package and the command line as arguments. *)
Definition main (scripts : list (string * handler)) (argv : list string)
    : run Z :=
  let parser :=
    {| prog := "grounding_dino";
       add_help := true;
       description := "Train Adapt Optimize entrypoint for grounding_dino" |} in
  let* subtasks := get_subtask_list scripts in
  let* parsed := command_line_parser parser subtasks argv in
  launch (fst parsed) (snd parsed) subtasks "grounding_dino".

(** ** Float literals

    A decimal literal denotes the same number as the double that Python reads
    from it when it is a binary fraction of small size.  Comparisons between
    such literals are then the comparisons of the fractions. *)

Definition is_binary_fraction (q : Q) : bool :=
  let d := Z.pos (Qden (Qred q)) in
  (Z.land d (d - 1) =? 0)%Z.

Definition float_literals (c : field_call) : list Q :=
  flat_map (fun kv => match snd kv with PFloat q => [q] | _ => [] end)
           (call_kwargs c).

(** The calls whose numbers are compared: those that declare a bound or a
    math condition. *)
Definition is_compared (c : field_call) : bool :=
  existsb (fun k => match kwarg c k with Some _ => true | None => false end)
          ["valid_min"; "valid_max"; "math_cond"].

(** ** Candidate properties and sample inputs *)

(** "Every operation on a record leaves all of its fields unchanged." *)
Definition immutable (cls : dataclass) : Prop :=
  forall (self : instance) (op : operation), run_operation cls self op = self.

(** A Swin table with the one key that the schema itself names. *)
Definition sample_swin_keys : list string := ["swin_tiny_224_1k"].

(** The registry of the dispatcher example; every handler exits with 0. *)
Definition sample_scripts : list (string * handler) :=
  [ ("train", fun _ => 0%Z); ("evaluate", fun _ => 0%Z); ("export", fun _ => 0%Z) ].

(** ** Annotations against values *)

(** [isinstance]-style agreement of a value with an annotation. *)
Fixpoint has_type (t : pytype) (v : pyval) : bool :=
  match t, v with
  | TInt, PInt _ => true
  | TFloat, PFloat _ => true
  | TBool, PBool _ => true
  | TStr, PStr _ => true
  | TOptional _, PNone => true
  | TOptional t', _ => has_type t' v
  | TList t', PList l => forallb (has_type t') l
  | _, _ => false
  end.

(** The builder that goes with an annotation. *)
Definition builder_for (t : pytype) : option builder :=
  match t with
  | TInt => Some INT_FIELD
  | TFloat => Some FLOAT_FIELD
  | TBool => Some BOOL_FIELD
  | TStr | TOptional TStr => Some STR_FIELD
  | TList _ => Some LIST_FIELD
  | TOptional _ => None
  end.

Definition builder_eqb (x y : builder) : bool :=
  match x, y with
  | BOOL_FIELD, BOOL_FIELD | FLOAT_FIELD, FLOAT_FIELD | INT_FIELD, INT_FIELD
  | LIST_FIELD, LIST_FIELD | STR_FIELD, STR_FIELD => true
  | _, _ => false
  end.

Definition is_inf (v : pyval) : bool :=
  match v with
  | PStr s => String.eqb s "inf"
  | _ => false
  end.

Definition optionally (p : pyval -> bool) (o : option pyval) : bool :=
  match o with
  | Some v => p v
  | None => true
  end.

Definition declares (c : field_call) (k : string) : bool :=
  match kwarg c k with
  | Some _ => true
  | None => false
  end.

(** An attribute is well typed when its builder goes with its annotation,
    its value and its default_value have the annotated type, its bounds are
    numbers of that type (or "inf" above), and it declares bounds or a math
    condition only if numeric and options only if a string. *)
Definition well_typedb (a : attr) : bool :=
  let c := attr_init a in
  let t := attr_type a in
  match builder_for t with
  | Some b => builder_eqb b (call_builder c)
  | None => false
  end &&
  match call_value c with
  | Some v => has_type t v
  | None => false
  end &&
  optionally (has_type t) (kwarg c "default_value") &&
  optionally (has_type t) (kwarg c "valid_min") &&
  optionally (fun hi => is_inf hi || has_type t hi) (kwarg c "valid_max") &&
  implb (declares c "valid_min" || declares c "valid_max" || declares c "math_cond")
        (is_numeric_builder (call_builder c)) &&
  implb (declares c "valid_options") (builder_eqb (call_builder c) STR_FIELD).

(** The keywords that the builder calls of the class use. *)
Definition builder_keywords : list string :=
  [ "value"; "arrList"; "default_value"; "description"; "display_name";
    "display_unit"; "valid_min"; "valid_max"; "valid_options"; "math_cond";
    "automl_enabled"; "popular" ].

Definition display_name_of (a : attr) : option string :=
  match kwarg (attr_init a) "display_name" with
  | Some (PStr s) => Some s
  | _ => None
  end.

Definition keywords_okb (a : attr) : bool :=
  let c := attr_init a in
  forallb (fun kv => existsb (String.eqb (fst kv)) builder_keywords)
          (call_kwargs c) &&
  bool_decide (NoDup (map fst (call_kwargs c))) &&
  Bool.eqb (declares c "arrList") (builder_eqb (call_builder c) LIST_FIELD) &&
  Bool.eqb (declares c "value") (negb (builder_eqb (call_builder c) LIST_FIELD)).

Definition shares_display_name (a b : attr) : bool :=
  match display_name_of a, display_name_of b with
  | Some x, Some y => String.eqb x y
  | _, _ => false
  end.

Definition is_train_backbone_pair (a b : attr) : bool :=
  (String.eqb (attr_name a) "aux_loss" && String.eqb (attr_name b) "train_backbone") ||
  (String.eqb (attr_name a) "train_backbone" && String.eqb (attr_name b) "aux_loss").

(** Number of occurrences of a character. *)
Fixpoint count_char (c : ascii) (s : string) : nat :=
  match s with
  | EmptyString => 0
  | String a s' => (if Ascii.eqb a c then 1 else 0) + count_char c s'
  end.

(** Case analysis over the attributes of the class, in declaration order. *)
Ltac each_field H :=
  unfold fields in H; simpl in H;
  repeat (destruct H as [<- | H]); [.. | contradiction].

(** * Properties *)

(** ** Strings: splitting what was joined *)

Lemma split_nonempty (c : ascii) (s : string) : split c s <> [].
Proof.
  destruct s as [|a s]; simpl; [discriminate|].
  destruct (Ascii.eqb a c); [discriminate|].
  destruct (split c s); discriminate.
Qed.

Lemma split_app_sep (c : ascii) (a b : string) :
  split c (a +:+ String c b) = (split c a ++ split c b)%list.
Proof.
  induction a as [|x a IH]; simpl.
  - now rewrite Ascii.eqb_refl.
  - rewrite IH. destruct (Ascii.eqb x c); [reflexivity|].
    pose proof (split_nonempty c a) as Hne.
    destruct (split c a); [congruence | reflexivity].
Qed.

Lemma split_clean (c : ascii) (s : string) :
  contains_char c s = false -> split c s = [s].
Proof.
  induction s as [|a s IH]; simpl; [reflexivity|].
  intros H. apply orb_false_iff in H as [Ha Hs].
  rewrite Ha, (IH Hs). reflexivity.
Qed.

Lemma join_cons (c : ascii) (x y : string) (l : list string) :
  join (String c EmptyString) (x :: y :: l) =
  x +:+ String c (join (String c EmptyString) (y :: l)).
Proof. reflexivity. Qed.

(** Splitting a joined list gives back the pieces of each item. *)
Lemma split_join (c : ascii) (l : list string) :
  l <> [] ->
  split c (join (String c EmptyString) l) = flat_map (split c) l.
Proof.
  induction l as [|x [|y l] IH]; intros Hne.
  - congruence.
  - simpl. now rewrite app_nil_r.
  - rewrite join_cons, split_app_sep, IH by discriminate. reflexivity.
Qed.

(** Round trip: items without the separator come back unchanged. *)
Lemma split_join_clean (c : ascii) (l : list string) :
  l <> [] ->
  Forall (fun x => contains_char c x = false) l ->
  split c (join (String c EmptyString) l) = l.
Proof.
  intros Hne Hall. rewrite split_join by assumption.
  clear Hne. induction Hall as [|x l Hx _ IH]; simpl; [reflexivity|].
  now rewrite (split_clean _ _ Hx), IH.
Qed.

(** An item without the separator is among the pieces, whatever the other
    items contain. *)
Lemma In_split_join (c : ascii) (x : string) (l : list string) :
  In x l -> contains_char c x = false ->
  In x (split c (join (String c EmptyString) l)).
Proof.
  intros Hin Hx. rewrite split_join by (intros ->; contradiction).
  apply in_flat_map. exists x. split; [assumption|].
  rewrite (split_clean _ _ Hx). now left.
Qed.

(** ** The boolean checks decide the declared-bounds predicates *)

Lemma above_minb_sound (c : field_call) (x : Q) :
  above_minb c x = true -> above_min c x.
Proof.
  unfold above_minb, above_min. intros H lo Hlo. rewrite Hlo in H.
  destruct (as_number lo) as [ql|]; [|discriminate].
  exists ql. split; [reflexivity|]. now apply Qle_bool_iff.
Qed.

Lemma below_maxb_sound (c : field_call) (x : Q) :
  below_maxb c x = true -> below_max c x.
Proof.
  unfold below_maxb, below_max. intros H hi Hhi. rewrite Hhi in H.
  destruct hi as [|b|z|q|s|l]; simpl in H; try discriminate.
  - right. eexists. split; [reflexivity|]. now apply Qle_bool_iff.
  - right. eexists. split; [reflexivity|]. now apply Qle_bool_iff.
  - left. apply String.eqb_eq in H. now subst.
Qed.

Lemma satisfies_math_condb_sound (c : field_call) (x : Q) :
  satisfies_math_condb c x = true -> satisfies_math_cond c x.
Proof.
  unfold satisfies_math_condb, satisfies_math_cond. intros H cond Hc.
  rewrite Hc in H. destruct cond as [|b|z|q|s|l]; try discriminate.
  exists s. split; [reflexivity|].
  destruct (math_cond_holds s x) as [[|]|]; congruence.
Qed.

Lemma declared_value_okb_sound (c : field_call) :
  declared_value_okb c = true -> declared_value_ok c.
Proof.
  unfold declared_value_okb, declared_value_ok. intros H.
  destruct (call_value c) as [v|]; [|discriminate].
  destruct (as_number v) as [x|] eqn:Ex; [|discriminate].
  apply andb_true_iff in H as [H Hm]. apply andb_true_iff in H as [Hlo Hhi].
  exists v, x.
  split; [reflexivity|]. split; [exact Ex|].
  split; [now apply above_minb_sound|].
  split; [now apply below_maxb_sound | now apply satisfies_math_condb_sound].
Qed.

Lemma bounds_well_formedb_sound (c : field_call) :
  bounds_well_formedb c = true -> bounds_well_formed c.
Proof.
  unfold bounds_well_formedb, bounds_well_formed. intros H lo hi Hlo Hhi.
  rewrite Hlo, Hhi in H.
  destruct hi as [|b|z|q|s|l]; try (destruct (as_number lo); discriminate).
  - right. destruct (as_number lo) as [ql|] eqn:E; [|discriminate].
    exists ql, (inject_Z z). simpl. repeat split. now apply Qle_bool_iff.
  - right. destruct (as_number lo) as [ql|] eqn:E; [|discriminate].
    exists ql, q. simpl. repeat split. now apply Qle_bool_iff.
  - left. apply String.eqb_eq in H. now subst.
Qed.

(** The bound is also complete: a value strictly outside is refused. *)
Lemma above_minb_false (c : field_call) (x ql : Q) (lo : pyval) :
  kwarg c "valid_min" = Some lo -> as_number lo = Some ql -> (x < ql)%Q ->
  above_minb c x = false.
Proof.
  intros Hlo Hq Hlt. unfold above_minb. rewrite Hlo, Hq.
  destruct (Qle_bool ql x) eqn:E; [|reflexivity].
  apply Qle_bool_iff in E. exfalso. exact (Qlt_not_le _ _ Hlt E).
Qed.

Lemma below_maxb_false (c : field_call) (x qh : Q) (hi : pyval) :
  kwarg c "valid_max" = Some hi -> as_number hi = Some qh -> (qh < x)%Q ->
  below_maxb c x = false.
Proof.
  intros Hhi Hq Hlt. unfold below_maxb. rewrite Hhi.
  assert (Qle_bool x qh = false) as E.
  { destruct (Qle_bool x qh) eqn:E; [|reflexivity].
    apply Qle_bool_iff in E. exfalso. exact (Qlt_not_le _ _ Hlt E). }
  destruct hi as [|b|z|q|s|l]; simpl in Hq; try discriminate;
    injection Hq as <-; exact E.
Qed.

(** ** Construction of instances *)

Lemma init_fields_lookup_other (fs : list attr) (kwargs : list (string * pyval))
    (self o : instance) (name : string) :
  init_fields fs kwargs self = inr o ->
  ~ In name (map attr_name fs) ->
  o !! name = self !! name.
Proof.
  revert self. induction fs as [|a fs IH]; intros self Hinit Hnot; simpl in *.
  - now injection Hinit as <-.
  - assert (attr_name a <> name /\ ~ In name (map attr_name fs)) as [Hne Hrest]
      by tauto.
    destruct (assoc (attr_name a) kwargs) as [v|].
    + rewrite (IH _ Hinit Hrest). now apply lookup_insert_ne.
    + destruct (field_default a) as [v|]; [|discriminate].
      rewrite (IH _ Hinit Hrest). now apply lookup_insert_ne.
Qed.

(** After [__init__], a field holds its keyword argument if one was given
    and its default otherwise. *)
Lemma init_fields_lookup (fs : list attr) (kwargs : list (string * pyval))
    (self o : instance) :
  NoDup (map attr_name fs) ->
  init_fields fs kwargs self = inr o ->
  forall a, In a fs ->
    o !! attr_name a =
    match assoc (attr_name a) kwargs with
    | Some v => Some v
    | None => field_default a
    end.
Proof.
  revert self. induction fs as [|a fs IH]; intros self Hnd Hinit b Hin;
    simpl in *; [contradiction|].
  apply NoDup_cons in Hnd as [Hfresh Hnd].
  destruct Hin as [<- | Hin].
  - destruct (assoc (attr_name a) kwargs) as [v|].
    + rewrite (init_fields_lookup_other _ _ _ _ _ Hinit).
      * apply lookup_insert_eq.
      * intros H. apply Hfresh. now apply list_elem_of_In.
    + destruct (field_default a) as [v|]; [|discriminate].
      rewrite (init_fields_lookup_other _ _ _ _ _ Hinit).
      * apply lookup_insert_eq.
      * intros H. apply Hfresh. now apply list_elem_of_In.
  - destruct (assoc (attr_name a) kwargs) as [v|].
    + exact (IH _ Hnd Hinit b Hin).
    + destruct (field_default a) as [v|]; [|discriminate].
      exact (IH _ Hnd Hinit b Hin).
Qed.

Lemma init_fields_dom (fs : list attr) (kwargs : list (string * pyval))
    (self o : instance) (name : string) :
  init_fields fs kwargs self = inr o ->
  (is_Some (o !! name) <->
   In name (map attr_name fs) \/ is_Some (self !! name)).
Proof.
  revert self. induction fs as [|a fs IH]; intros self Hinit; simpl in *.
  - injection Hinit as <-. tauto.
  - assert (forall v, init_fields fs kwargs (<[attr_name a := v]> self) = inr o ->
              (is_Some (o !! name) <->
               (attr_name a = name \/ In name (map attr_name fs)) \/
               is_Some (self !! name))) as Hstep.
    { intros v Hv. rewrite (IH _ Hv), lookup_insert_is_Some.
      destruct (decide (attr_name a = name)); tauto. }
    destruct (assoc (attr_name a) kwargs) as [v|]; [exact (Hstep v Hinit)|].
    destruct (field_default a) as [v|]; [exact (Hstep v Hinit) | discriminate].
Qed.

(** [__init__] succeeds when every field has a default. *)
Lemma init_fields_total (fs : list attr) (kwargs : list (string * pyval))
    (self : instance) :
  Forall (fun a => field_default a <> None) fs ->
  exists o, init_fields fs kwargs self = inr o.
Proof.
  intros Hall. revert self.
  induction Hall as [|a fs Ha _ IH]; intros self; simpl.
  - now exists self.
  - destruct (assoc (attr_name a) kwargs) as [v|]; [apply IH|].
    destruct (field_default a) as [v|]; [apply IH | congruence].
Qed.

(** ** The declared schema is consistent with its own metadata *)

Section SchemaProperties.

Variable swin_model_dict_keys : list string.

Local Abbreviation schema := (fields swin_model_dict_keys).

Lemma field_names_unique :
  NoDup (map attr_name schema).
Proof.
  apply (bool_decide_unpack _). vm_compute. reflexivity.
Qed.

Lemma every_field_has_default :
  Forall (fun a => field_default a <> None) schema.
Proof.
  apply List.Forall_forall. intros a Hin.
  each_field Hin; vm_compute; intros H; discriminate H.
Qed.

Lemma load_config_lookup (overrides : list (string * pyval)) (o : instance) :
  load_config (GDINOModelConfig swin_model_dict_keys) overrides = inr o ->
  forall a, In a schema ->
    o !! attr_name a =
    match assoc (attr_name a) overrides with
    | Some v => Some v
    | None => field_default a
    end.
Proof.
  unfold load_config, dataclass_init. intros Ho.
  destruct (forallb _ overrides); [|discriminate].
  exact (init_fields_lookup _ _ _ _ field_names_unique Ho).
Qed.

Lemma load_config_total (overrides : list (string * pyval)) :
  forallb (fun kv => known_name (GDINOModelConfig swin_model_dict_keys) (fst kv))
          overrides = true ->
  exists o, load_config (GDINOModelConfig swin_model_dict_keys) overrides = inr o.
Proof.
  unfold load_config, dataclass_init. intros ->.
  apply init_fields_total, every_field_has_default.
Qed.

Lemma numeric_fields_checked :
  forallb (fun a => implb (is_numeric_builder (call_builder (attr_init a)))
                          (declared_value_okb (attr_init a))) schema = true.
Proof. vm_compute. reflexivity. Qed.

(** C1: every numeric field's declared value is a number within the declared
    [valid_min, valid_max] (with "inf" unbounded above) and satisfies the
    declared math_cond; in particular fix_refpoints_hw (value -1, valid_min
    -2, valid_max "inf", math_cond "!= 0") and dropout_ratio (value 0.0 in
    [0.0, 1.0]). *)
Theorem numeric_values_within_declared_bounds :
  (forall a, In a schema ->
     is_numeric_builder (call_builder (attr_init a)) = true ->
     declared_value_ok (attr_init a)) /\
  (call_kwargs (attr_init fix_refpoints_hw) =
     [ ("value", PInt (-1)); ("default_value", PInt (-1));
       ("valid_min", PInt (-2)); ("valid_max", PStr "inf");
       ("description", PStr "If this value is -1, width and height are learned seperately for each box.
                    If this value is -2, a shared width and height are learned.
                    A value greater than 0 specifies learning with a fixed number.");
       ("math_cond", PStr "!= 0");
       ("display_name", PStr "fix refpoints hw") ] /\
   In fix_refpoints_hw schema /\
   math_cond_holds "!= 0" (inject_Z (-1)) = Some true /\
   (inject_Z (-2) <= inject_Z (-1))%Q) /\
  (kwarg (attr_init dropout_ratio) "value" = Some (PFloat 0.0) /\
   kwarg (attr_init dropout_ratio) "valid_min" = Some (PFloat 0.0) /\
   kwarg (attr_init dropout_ratio) "valid_max" = Some (PFloat 1.0) /\
   In dropout_ratio schema /\
   (0.0 <= 0.0 <= 1.0)%Q).
Proof.
  split; [|split].
  - intros a Hin Hnum.
    pose proof numeric_fields_checked as Hall.
    rewrite forallb_forall in Hall. specialize (Hall a Hin).
    rewrite Hnum in Hall. now apply declared_value_okb_sound.
  - repeat split; try reflexivity.
    + unfold fields. simpl. tauto.
    + apply Qle_bool_iff. reflexivity.
  - repeat split; try reflexivity.
    + unfold fields. simpl. tauto.
    + apply Qle_bool_iff. reflexivity.
    + apply Qle_bool_iff. reflexivity.
Qed.

(** Every float literal that takes part in a comparison is a binary
    fraction, so the decimal reading of the literals loses nothing. *)
Lemma compared_float_literals_exact :
  forall a, In a schema ->
    is_compared (attr_init a) = true ->
    forallb is_binary_fraction (float_literals (attr_init a)) = true.
Proof.
  assert (forallb (fun a => implb (is_compared (attr_init a))
                    (forallb is_binary_fraction (float_literals (attr_init a))))
                  schema = true) as Hall by (vm_compute; reflexivity).
  intros a Hin Hc. rewrite forallb_forall in Hall.
  specialize (Hall a Hin). now rewrite Hc in Hall.
Qed.

Lemma bounds_checked :
  forallb (fun a => bounds_well_formedb (attr_init a)) schema = true.
Proof. vm_compute. reflexivity. Qed.

(** C8: every field that declares both valid_min and valid_max has
    valid_min <= valid_max, unless valid_max is the sentinel "inf"; e.g.
    num_feature_levels declares 1 <= 5 and dropout_ratio 0.0 <= 1.0. *)
Theorem declared_bounds_well_formed :
  (forall a, In a schema -> bounds_well_formed (attr_init a)) /\
  (In num_feature_levels schema /\
   kwarg (attr_init num_feature_levels) "valid_min" = Some (PInt 1) /\
   kwarg (attr_init num_feature_levels) "valid_max" = Some (PInt 5) /\
   (inject_Z 1 <= inject_Z 5)%Q) /\
  (In dropout_ratio schema /\
   kwarg (attr_init dropout_ratio) "valid_min" = Some (PFloat 0.0) /\
   kwarg (attr_init dropout_ratio) "valid_max" = Some (PFloat 1.0) /\
   (0.0 <= 1.0)%Q).
Proof.
  split; [|split].
  - intros a Hin. apply bounds_well_formedb_sound.
    pose proof bounds_checked as Hall.
    rewrite forallb_forall in Hall. exact (Hall a Hin).
  - repeat split; try reflexivity.
    + unfold fields. simpl. tauto.
    + apply Qle_bool_iff. reflexivity.
  - repeat split; try reflexivity.
    + unfold fields. simpl. tauto.
    + apply Qle_bool_iff. reflexivity.
Qed.

(** The names of the fields marked [automl_enabled="TRUE"]. *)
Lemma automl_field_names :
  map attr_name
    (List.filter (fun a => flag_is (attr_init a) "automl_enabled" "TRUE") schema)
  = ["num_queries"; "num_select"; "enc_layers"; "dec_layers"].
Proof. vm_compute. reflexivity. Qed.

(** C9: the fields marked automl_enabled="TRUE" are exactly num_queries,
    num_select, enc_layers and dec_layers; each declares valid_min=1; only
    num_queries declares a valid_max (the sentinel "inf"), the other three
    declare none. *)
Theorem automl_fields_bounds :
  forall a, In a schema ->
    (kwarg (attr_init a) "automl_enabled" = Some (PStr "TRUE") <->
     In (attr_name a) ["num_queries"; "num_select"; "enc_layers"; "dec_layers"]) /\
    (kwarg (attr_init a) "automl_enabled" = Some (PStr "TRUE") ->
     kwarg (attr_init a) "valid_min" = Some (PInt 1) /\
     (attr_name a = "num_queries" ->
      kwarg (attr_init a) "valid_max" = Some (PStr "inf")) /\
     (attr_name a <> "num_queries" ->
      kwarg (attr_init a) "valid_max" = None)).
Proof.
  intros a Hin. each_field Hin; (split; [split|]).
  all: intros H; vm_compute in H.
  all: try discriminate H.
  all: try (repeat (destruct H as [H | H]; [discriminate H|]); contradiction H).
  all: vm_compute.
  all: try reflexivity.
  all: try (repeat (first [left; reflexivity | right])).
  all: split; [reflexivity|].
  all: split; intros H'.
  all: first [reflexivity | discriminate H' | exfalso; apply H'; reflexivity].
Qed.

(** C10: hidden_dim is the only field whose builder call has no
    display_name; it passes display_unit="hidden dim" instead. *)
Theorem hidden_dim_only_field_without_display_name :
  (forall a, In a schema ->
     (kwarg (attr_init a) "display_name" = None <-> attr_name a = "hidden_dim")) /\
  In hidden_dim schema /\
  attr_name hidden_dim = "hidden_dim" /\
  kwarg (attr_init hidden_dim) "display_name" = None /\
  kwarg (attr_init hidden_dim) "display_unit" = Some (PStr "hidden dim").
Proof.
  split.
  - intros a Hin. each_field Hin; vm_compute;
      (split; intros H; reflexivity || discriminate H).
  - repeat split. unfold fields. simpl. tauto.
Qed.

(** *** Option sets *)




Section SwinTinyRegistered.

Hypothesis swin_tiny_registered : In "swin_tiny_224_1k" swin_model_dict_keys.

Lemma swin_tiny_supported :
  In "swin_tiny_224_1k" (SUPPORTED_BACKBONES swin_model_dict_keys).
Proof. unfold SUPPORTED_BACKBONES. apply in_or_app. now left. Qed.

Lemma swin_tiny_among_options :
  In "swin_tiny_224_1k"
     (options_of (join "," (SUPPORTED_BACKBONES swin_model_dict_keys))).
Proof.
  unfold options_of, comma. apply In_split_join; [|reflexivity].
  exact swin_tiny_supported.
Qed.

(** *** The validator on the default record *)

Lemma flat_map_nil {A B : Type} (f : A -> list B) (l : list A) :
  (forall a, In a l -> f a = []) -> flat_map f l = [].
Proof.
  induction l as [|x l IH]; intros H; simpl; [reflexivity|].
  rewrite (H x) by now left. apply IH. intros a Ha. apply H. now right.
Qed.

Lemma backbone_in_options :
  in_options (attr_init (backbone swin_model_dict_keys))
             (PStr "swin_tiny_224_1k") = true.
Proof.
  unfold in_options.
  change (kwarg (attr_init (backbone swin_model_dict_keys)) "valid_options")
    with (Some (PStr (join "," (SUPPORTED_BACKBONES swin_model_dict_keys)))).
  simpl. apply existsb_exists. exists "swin_tiny_224_1k".
  split; [exact swin_tiny_among_options | reflexivity].
Qed.

Lemma default_record_fields_valid (o : instance) :
  load_config (GDINOModelConfig swin_model_dict_keys) [] = inr o ->
  forall a, In a schema -> check_attr o a = [].
Proof.
  intros Ho a Hin. unfold check_attr.
  rewrite (load_config_lookup _ _ Ho a Hin). simpl assoc.
  each_field Hin.
  2: { change (field_default (backbone swin_model_dict_keys))
         with (Some (PStr "swin_tiny_224_1k")).
       change (attr_name (backbone swin_model_dict_keys)) with "backbone".
       cbv iota. rewrite backbone_in_options. reflexivity. }
  all: vm_compute; reflexivity.
Qed.

Lemma report_length_rule (cls : dataclass) (o : instance) :
  cross_field_ok o = false ->
  In (Violation "return_interm_indices" LengthRule) (validate cls o).
Proof.
  intros H. unfold validate. apply in_or_app. right.
  rewrite H. now left.
Qed.

(** C3: a record with num_feature_levels = 4 and return_interm_indices =
    [1,2,3,4] satisfies the cross-field invariant and validates; with
    return_interm_indices = [1,2,3] validation fails on the length rule; the
    default record (4 and [1,2,3,4]) satisfies the invariant. *)
Theorem cross_field_length_validation :
  (exists o,
     load_config (GDINOModelConfig swin_model_dict_keys) [] = inr o /\
     o !! "num_feature_levels" = Some (PInt 4) /\
     o !! "return_interm_indices" = Some (PList [PInt 1; PInt 2; PInt 3; PInt 4]) /\
     cross_field_ok o = true /\
     validate (GDINOModelConfig swin_model_dict_keys) o = []) /\
  (forall o : instance,
     o !! "num_feature_levels" = Some (PInt 4) ->
     o !! "return_interm_indices" = Some (PList [PInt 1; PInt 2; PInt 3; PInt 4]) ->
     cross_field_ok o = true /\
     (flat_map (check_attr o) schema = [] ->
      validate (GDINOModelConfig swin_model_dict_keys) o = [])) /\
  (forall o : instance,
     o !! "num_feature_levels" = Some (PInt 4) ->
     o !! "return_interm_indices" = Some (PList [PInt 1; PInt 2; PInt 3]) ->
     cross_field_ok o = false /\
     In (Violation "return_interm_indices" LengthRule)
        (validate (GDINOModelConfig swin_model_dict_keys) o) /\
     validate (GDINOModelConfig swin_model_dict_keys) o <> []).
Proof.
  split; [|split].
  - destruct (load_config_total []) as [o Ho]; [reflexivity|].
    exists o. split; [exact Ho|].
    pose proof (default_record_fields_valid o Ho) as Hfields.
    assert (o !! "num_feature_levels" = Some (PInt 4)) as Hn.
    { apply (load_config_lookup _ _ Ho num_feature_levels).
      unfold fields. simpl. tauto. }
    assert (o !! "return_interm_indices"
            = Some (PList [PInt 1; PInt 2; PInt 3; PInt 4])) as Hr.
    { apply (load_config_lookup _ _ Ho return_interm_indices).
      unfold fields. simpl. tauto. }
    assert (cross_field_ok o = true) as Hok
      by (unfold cross_field_ok; rewrite Hr, Hn; reflexivity).
    repeat (split; [assumption|]).
    unfold validate.
    change (dc_fields (GDINOModelConfig swin_model_dict_keys)) with schema.
    rewrite (flat_map_nil _ _ Hfields), Hok. reflexivity.
  - intros o Hn Hr.
    assert (cross_field_ok o = true) as Hok
      by (unfold cross_field_ok; rewrite Hr, Hn; reflexivity).
    split; [exact Hok|]. intros Hfields. unfold validate.
    change (dc_fields (GDINOModelConfig swin_model_dict_keys)) with schema.
    rewrite Hfields, Hok. reflexivity.
  - intros o Hn Hr.
    assert (cross_field_ok o = false) as Hok
      by (unfold cross_field_ok; rewrite Hr, Hn; reflexivity).
    split; [exact Hok|].
    pose proof (report_length_rule (GDINOModelConfig swin_model_dict_keys) o Hok)
      as Hin.
    split; [exact Hin|]. intros Hnil. rewrite Hnil in Hin. contradiction.
Qed.

End SwinTinyRegistered.

(** *** Loading without overrides *)

(** C6: a field without an override holds its declared default_value after
    load, not its value where the two differ: log_scale (value None) loads
    "none" and pretrained_backbone_path (value None) loads the empty
    string; a field that declares no default_value loads its value. *)
Theorem unset_field_loads_default_value :
  (forall (overrides : list (string * pyval)) (a : attr),
     In a schema ->
     assoc (attr_name a) overrides = None ->
     forallb (fun kv =>
                known_name (GDINOModelConfig swin_model_dict_keys) (fst kv))
             overrides = true ->
     exists o,
       load_config (GDINOModelConfig swin_model_dict_keys) overrides = inr o /\
       (forall dv, kwarg (attr_init a) "default_value" = Some dv ->
          o !! attr_name a = Some dv) /\
       (kwarg (attr_init a) "default_value" = None ->
          o !! attr_name a = call_value (attr_init a))) /\
  (kwarg (attr_init log_scale) "value" = Some PNone /\
   kwarg (attr_init log_scale) "default_value" = Some (PStr "none") /\
   kwarg (attr_init pretrained_backbone_path) "value" = Some PNone /\
   kwarg (attr_init pretrained_backbone_path) "default_value" = Some (PStr "") /\
   exists o,
     load_config (GDINOModelConfig swin_model_dict_keys) [] = inr o /\
     o !! "log_scale" = Some (PStr "none") /\
     o !! "pretrained_backbone_path" = Some (PStr "")).
Proof.
  split.
  - intros overrides a Hin Hunset Hknown.
    destruct (load_config_total overrides Hknown) as [o Ho].
    exists o. split; [exact Ho|].
    rewrite (load_config_lookup _ _ Ho a Hin), Hunset. unfold field_default.
    split.
    + intros dv Hdv. now rewrite Hdv.
    + intros Hnone. now rewrite Hnone.
  - repeat (split; [reflexivity|]).
    destruct (load_config_total [] eq_refl) as [o Ho].
    exists o. split; [exact Ho|]. split.
    + apply (load_config_lookup _ _ Ho log_scale). unfold fields. simpl. tauto.
    + apply (load_config_lookup _ _ Ho pretrained_backbone_path).
      unfold fields. simpl. tauto.
Qed.

(** *** Attribute access on a record *)

Lemma field_names_not_reserved (a : attr) :
  In a schema -> reserved_attribute (attr_name a) = false.
Proof.
  assert (forallb (fun a => negb (reserved_attribute (attr_name a))) schema = true)
    as Hall by (vm_compute; reflexivity).
  intros Hin. rewrite forallb_forall in Hall.
  apply negb_true_iff. exact (Hall a Hin).
Qed.

Lemma field_name_declared (a : attr) :
  In a schema ->
  In (attr_name a) (field_names (GDINOModelConfig swin_model_dict_keys)).
Proof. intros Hin. unfold field_names. apply (in_map attr_name). exact Hin. Qed.

Lemma setattr_ordinary (self : instance) (name : string) (v : pyval) :
  reserved_attribute name = false ->
  setattr (GDINOModelConfig swin_model_dict_keys) self name v
    = inr (<[name := v]> self).
Proof.
  unfold reserved_attribute, setattr. intros H.
  apply orb_false_iff in H as [H Hw]. apply orb_false_iff in H as [Hc Hd].
  simpl. now rewrite Hc, Hd, Hw.
Qed.

Lemma setattr_reserved (self : instance) (name : string) (v : pyval) :
  reserved_attribute name = true ->
  exists e, setattr (GDINOModelConfig swin_model_dict_keys) self name v = inl e.
Proof.
  unfold reserved_attribute, setattr. intros H. simpl.
  destruct (String.eqb name "__class__"); [eexists; reflexivity|].
  destruct (String.eqb name "__dict__"); [eexists; reflexivity|].
  destruct (String.eqb name "__weakref__"); [eexists; reflexivity|].
  discriminate H.
Qed.

Lemma built_record_dom (kwargs : list (string * pyval)) (o : instance)
    (name : string) :
  dataclass_init (GDINOModelConfig swin_model_dict_keys) kwargs = inr o ->
  (is_Some (o !! name) <->
   In name (field_names (GDINOModelConfig swin_model_dict_keys))).
Proof.
  unfold dataclass_init. destruct (forallb _ kwargs); [|discriminate].
  intros Hinit. rewrite (init_fields_dom _ _ _ _ name Hinit), lookup_empty.
  unfold field_names. split; [|tauto].
  intros [H | [x Hx]]; [exact H | discriminate Hx].
Qed.

(** C7 (amended): a built record is a plain, non-frozen dataclass instance.
    Reading a field leaves it unchanged.  Assigning to a declared field is
    accepted, sets that field, leaves every other declared field at the
    value it had, and keeps the attributes of the record the declared
    fields.  Assigning to another name adds that attribute, except that
    __class__, __dict__ and __weakref__ are refused and leave the record
    unchanged. *)
Theorem assignment_on_built_record
    (kwargs : list (string * pyval)) (o : instance) (a : attr) (v : pyval) :
  dataclass_init (GDINOModelConfig swin_model_dict_keys) kwargs = inr o ->
  In a schema ->
  run_operation (GDINOModelConfig swin_model_dict_keys) o (GetAttr (attr_name a))
    = o /\
  (exists o',
     setattr (GDINOModelConfig swin_model_dict_keys) o (attr_name a) v = inr o' /\
     run_operation (GDINOModelConfig swin_model_dict_keys) o
       (SetAttr (attr_name a) v) = o' /\
     o' !! attr_name a = Some v /\
     (forall b, In b schema -> attr_name b <> attr_name a ->
        exists w, o !! attr_name b = Some w /\ o' !! attr_name b = Some w) /\
     (forall name, is_Some (o' !! name) <->
        In name (field_names (GDINOModelConfig swin_model_dict_keys)))) /\
  (forall name w,
     ~ In name (field_names (GDINOModelConfig swin_model_dict_keys)) ->
     reserved_attribute name = false ->
     o !! name = None /\
     exists o',
       setattr (GDINOModelConfig swin_model_dict_keys) o name w = inr o' /\
       o' !! name = Some w /\
       (forall other, other <> name -> o' !! other = o !! other)) /\
  (forall name w,
     reserved_attribute name = true ->
     (exists e, setattr (GDINOModelConfig swin_model_dict_keys) o name w = inl e) /\
     run_operation (GDINOModelConfig swin_model_dict_keys) o (SetAttr name w) = o).
Proof.
  intros Hinit Hin.
  pose proof (fun name => built_record_dom kwargs o name Hinit) as Hdom.
  pose proof (field_name_declared a Hin) as Hname.
  split; [reflexivity|]. split; [|split].
  - exists (<[attr_name a := v]> o).
    pose proof (setattr_ordinary o (attr_name a) v (field_names_not_reserved a Hin))
      as Hset.
    split; [exact Hset|].
    split; [simpl; now rewrite Hset|].
    split; [apply lookup_insert_eq|]. split.
    + intros b Hb Hne.
      assert (is_Some (o !! attr_name b)) as [w Hw].
      { apply Hdom. now apply field_name_declared. }
      exists w. split; [exact Hw|]. rewrite lookup_insert_ne by congruence.
      exact Hw.
    + intros name. rewrite lookup_insert_is_Some, <- Hdom.
      destruct (decide (attr_name a = name)) as [<- | Hne]; [|tauto].
      split; [intros _; now apply Hdom | now left].
  - intros name w Hnot Hres.
    assert (o !! name = None) as Hnone.
    { destruct (o !! name) eqn:E; [|reflexivity].
      exfalso. apply Hnot, Hdom. rewrite E. now eexists. }
    split; [exact Hnone|]. exists (<[name := w]> o).
    split; [now apply setattr_ordinary|].
    split; [apply lookup_insert_eq|].
    intros other Hne. apply lookup_insert_ne. congruence.
  - intros name w Hres. destruct (setattr_reserved o name w Hres) as [e He].
    split; [now exists e|]. simpl. now rewrite He.
Qed.

End SchemaProperties.

(** ** Counterexamples on the schema *)


(** C7 (as stated) fails: on the default record an assignment to
    num_queries is accepted and changes the field, and an assignment to a
    new name adds a field. *)
Lemma record_is_mutable :
  (exists o o' o'',
     load_config (GDINOModelConfig sample_swin_keys) [] = inr o /\
     setattr (GDINOModelConfig sample_swin_keys) o "num_queries" (PInt 5) = inr o' /\
     o !! "num_queries" = Some (PInt 900) /\
     o' !! "num_queries" = Some (PInt 5) /\
     setattr (GDINOModelConfig sample_swin_keys) o "extra" PNone = inr o'' /\
     o !! "extra" = None /\
     o'' !! "extra" = Some PNone) /\
  ~ immutable (GDINOModelConfig sample_swin_keys).
Proof.
  destruct (load_config_total sample_swin_keys []) as [o Ho]; [reflexivity|].
  assert (o !! "num_queries" = Some (PInt 900)) as Hq.
  { apply (load_config_lookup sample_swin_keys [] o Ho num_queries).
    unfold fields. simpl. tauto. }
  assert (o !! "extra" = None) as Hx.
  { unfold load_config, dataclass_init in Ho. simpl forallb in Ho.
    rewrite (init_fields_lookup_other _ _ _ _ "extra" Ho).
    - apply lookup_empty.
    - vm_compute. intros H.
      repeat (destruct H as [H | H]; [discriminate H|]). exact H. }
  split.
  - exists o, (<["num_queries" := PInt 5]> o), (<["extra" := PNone]> o).
    split; [exact Ho|]. split; [reflexivity|]. split; [exact Hq|].
    split; [apply lookup_insert_eq|]. split; [reflexivity|].
    split; [exact Hx | apply lookup_insert_eq].
  - intros Himm.
    specialize (Himm o (SetAttr "num_queries" (PInt 5))). cbn in Himm.
    assert (<["num_queries" := PInt 5]> o !! "num_queries" = Some (PInt 900)) as H
      by (rewrite Himm; exact Hq).
    rewrite lookup_insert_eq in H. discriminate H.
Qed.

(** ** The entry point *)

Lemma get_subtasks_nonempty (scripts : list (string * handler)) :
  scripts <> [] -> get_subtasks scripts = ret scripts.
Proof. destruct scripts; [congruence | reflexivity]. Qed.

(** A registered subtask is called once, with the remainder of the command
    line untouched. *)
Lemma main_dispatches (scripts : list (string * handler)) (name : string)
    (rest : list string) (h : handler) :
  assoc name scripts = Some h ->
  main scripts (name :: rest) =
  ([Invocation name [("subtask", name)] rest "grounding_dino"],
   inr (h (Invocation name [("subtask", name)] rest "grounding_dino"))).
Proof.
  intros Hh. unfold main, get_subtask_list.
  rewrite get_subtasks_nonempty by (intros ->; discriminate Hh).
  unfold command_line_parser, launch, bind, ret. simpl fst. simpl snd.
  change (assoc "subtask" [("subtask", name)]) with (Some name).
  cbv iota. rewrite Hh. reflexivity.
Qed.

(** An unregistered name fails with the list of valid names, and no handler
    is called. *)
Lemma main_unknown_subtask (scripts : list (string * handler)) (name : string)
    (rest : list string) :
  scripts <> [] ->
  assoc name scripts = None ->
  main scripts (name :: rest) = ([], inl (SubtaskNotFoundError (map fst scripts))).
Proof.
  intros Hne Hh. unfold main, get_subtask_list.
  rewrite get_subtasks_nonempty by assumption.
  unfold command_line_parser, launch, bind, ret. simpl fst. simpl snd.
  change (assoc "subtask" [("subtask", name)]) with (Some name).
  cbv iota. rewrite Hh. reflexivity.
Qed.

(** C5: with the registry train, evaluate, export, the command line
    evaluate --epoch 5 calls the evaluate handler, and only it, with the
    remainder --epoch 5 unmodified; the command line bogus fails with a
    SubtaskNotFoundError that lists the three valid names, and no handler
    is called. *)
Theorem dispatch_evaluate_and_bogus (h_train h_evaluate h_export : handler) :
  let scripts :=
    [("train", h_train); ("evaluate", h_evaluate); ("export", h_export)] in
  let call :=
    Invocation "evaluate" [("subtask", "evaluate")] ["--epoch"; "5"]
               "grounding_dino" in
  main scripts ["evaluate"; "--epoch"; "5"] = ([call], inr (h_evaluate call)) /\
  inv_unknown_args call = ["--epoch"; "5"] /\
  main scripts ["bogus"] =
    ([], inl (SubtaskNotFoundError ["train"; "evaluate"; "export"])).
Proof.
  intros scripts call. split; [|split].
  - apply main_dispatches. reflexivity.
  - reflexivity.
  - apply (main_unknown_subtask scripts "bogus" []); [discriminate | reflexivity].
Qed.

(** ** The theorems at concrete inputs *)

Lemma in_schema_dropout_ratio : In dropout_ratio (fields sample_swin_keys).
Proof. unfold fields. simpl. tauto. Defined.

Lemma in_schema_num_select : In num_select (fields sample_swin_keys).
Proof. unfold fields. simpl. tauto. Defined.

Lemma in_schema_log_scale : In log_scale (fields sample_swin_keys).
Proof. unfold fields. simpl. tauto. Defined.

Lemma in_schema_backbone :
  In (backbone sample_swin_keys) (fields sample_swin_keys).
Proof. unfold fields. simpl. tauto. Defined.

Lemma sample_swin_tiny : In "swin_tiny_224_1k" sample_swin_keys.
Proof. simpl. tauto. Defined.

Lemma numeric_values_within_declared_bounds_witness :
  In dropout_ratio (fields sample_swin_keys) /\
  is_numeric_builder (call_builder (attr_init dropout_ratio)) = true /\
  declared_value_ok (attr_init dropout_ratio).
Proof.
  split; [exact in_schema_dropout_ratio|]. split; [reflexivity|].
  apply (proj1 (numeric_values_within_declared_bounds sample_swin_keys)
               dropout_ratio in_schema_dropout_ratio).
  reflexivity.
Defined.


Lemma cross_field_length_validation_witness :
  In "swin_tiny_224_1k" sample_swin_keys /\
  ({[ "num_feature_levels" := PInt 4;
      "return_interm_indices" := PList [PInt 1; PInt 2; PInt 3] ]} : instance)
    !! "num_feature_levels" = Some (PInt 4) /\
  ({[ "num_feature_levels" := PInt 4;
      "return_interm_indices" := PList [PInt 1; PInt 2; PInt 3] ]} : instance)
    !! "return_interm_indices" = Some (PList [PInt 1; PInt 2; PInt 3]) /\
  validate (GDINOModelConfig sample_swin_keys)
    {[ "num_feature_levels" := PInt 4;
       "return_interm_indices" := PList [PInt 1; PInt 2; PInt 3] ]} <> [].
Proof.
  split; [exact sample_swin_tiny|]. split; [reflexivity|]. split; [reflexivity|].
  apply (proj2 (proj2 (cross_field_length_validation sample_swin_keys
                         sample_swin_tiny))
               {[ "num_feature_levels" := PInt 4;
                  "return_interm_indices" := PList [PInt 1; PInt 2; PInt 3] ]});
    reflexivity.
Defined.

Lemma dispatch_evaluate_and_bogus_witness :
  main sample_scripts ["bogus"] =
    ([], inl (SubtaskNotFoundError ["train"; "evaluate"; "export"])).
Proof.
  apply (dispatch_evaluate_and_bogus (fun _ => 0%Z) (fun _ => 0%Z) (fun _ => 0%Z)).
Defined.

Lemma unset_field_loads_default_value_witness :
  In log_scale (fields sample_swin_keys) /\
  assoc (attr_name log_scale) [("num_queries", PInt 100)] = None /\
  exists o,
    load_config (GDINOModelConfig sample_swin_keys) [("num_queries", PInt 100)]
      = inr o /\
    o !! "log_scale" = Some (PStr "none").
Proof.
  split; [exact in_schema_log_scale|]. split; [reflexivity|].
  destruct (proj1 (unset_field_loads_default_value sample_swin_keys)
              [("num_queries", PInt 100)] log_scale in_schema_log_scale
              eq_refl eq_refl) as [o [Ho [Hdv _]]].
  exists o. split; [exact Ho|]. exact (Hdv (PStr "none") eq_refl).
Defined.

Lemma in_schema_num_queries : In num_queries (fields sample_swin_keys).
Proof. unfold fields. simpl. tauto. Defined.

Lemma in_schema_nheads : In nheads (fields sample_swin_keys).
Proof. unfold fields. simpl. tauto. Defined.

Lemma assignment_on_built_record_witness :
  exists o o',
    dataclass_init (GDINOModelConfig sample_swin_keys) [] = inr o /\
    setattr (GDINOModelConfig sample_swin_keys) o "num_queries" (PInt 5) = inr o' /\
    o !! "num_queries" = Some (PInt 900) /\
    o' !! "num_queries" = Some (PInt 5) /\
    o !! "nheads" = Some (PInt 8) /\
    o' !! "nheads" = Some (PInt 8).
Proof.
  destruct (load_config_total sample_swin_keys [] eq_refl) as [o Ho].
  pose proof (load_config_lookup sample_swin_keys [] o Ho) as Hlook.
  destruct (assignment_on_built_record sample_swin_keys [] o num_queries
              (PInt 5) Ho in_schema_num_queries)
    as [_ [[o' [Hset [_ [Hq [Hothers _]]]]] _]].
  assert (attr_name nheads <> attr_name num_queries) as Hne by discriminate.
  destruct (Hothers nheads in_schema_nheads Hne) as [w [Hw Hw']].
  assert (o !! "nheads" = Some (PInt 8)) as Hn
    by exact (Hlook nheads in_schema_nheads).
  assert (w = PInt 8) as -> by (simpl in Hw; congruence).
  exists o, o'. split; [exact Ho|]. split; [exact Hset|].
  split; [exact (Hlook num_queries in_schema_num_queries)|].
  split; [exact Hq|]. split; [exact Hn | exact Hw'].
Defined.

Lemma declared_bounds_well_formed_witness :
  In dropout_ratio (fields sample_swin_keys) /\
  bounds_well_formed (attr_init dropout_ratio).
Proof.
  split; [exact in_schema_dropout_ratio|].
  apply (proj1 (declared_bounds_well_formed sample_swin_keys)
               dropout_ratio in_schema_dropout_ratio).
Defined.

Lemma automl_fields_bounds_witness :
  In num_select (fields sample_swin_keys) /\
  kwarg (attr_init num_select) "automl_enabled" = Some (PStr "TRUE") /\
  kwarg (attr_init num_select) "valid_min" = Some (PInt 1) /\
  kwarg (attr_init num_select) "valid_max" = None.
Proof.
  split; [exact in_schema_num_select|]. split; [reflexivity|].
  destruct (automl_fields_bounds sample_swin_keys num_select
              in_schema_num_select) as [_ H].
  destruct (H eq_refl) as [Hmin [_ Hmax]].
  split; [exact Hmin|]. apply Hmax. discriminate.
Defined.

Lemma hidden_dim_only_field_without_display_name_witness :
  In dropout_ratio (fields sample_swin_keys) /\
  attr_name dropout_ratio <> "hidden_dim" /\
  kwarg (attr_init dropout_ratio) "display_name" <> None.
Proof.
  split; [exact in_schema_dropout_ratio|].
  assert (attr_name dropout_ratio <> "hidden_dim") as Hne by discriminate.
  split; [exact Hne|]. intros Hnone. apply Hne.
  apply (proj1 (hidden_dim_only_field_without_display_name sample_swin_keys)
               dropout_ratio in_schema_dropout_ratio).
  exact Hnone.
Defined.

(** * Further properties *)

(** ** Joining and splitting *)

Lemma split_length (c : ascii) (s : string) :
  length (split c s) = S (count_char c s).
Proof.
  induction s as [|a s IH]; simpl; [reflexivity|].
  destruct (Ascii.eqb a c); simpl; [now rewrite IH|].
  pose proof (split_nonempty c s) as Hne.
  destruct (split c s) as [|w ws]; [congruence | exact IH].
Qed.

Lemma count_char_clean (c : ascii) (s : string) :
  count_char c s = 0 <-> contains_char c s = false.
Proof.
  induction s as [|a s IH]; simpl; [tauto|].
  destruct (Ascii.eqb a c); simpl; [split; discriminate | exact IH].
Qed.

Lemma split_pieces_clean (c : ascii) (s : string) :
  Forall (fun x => contains_char c x = false) (split c s).
Proof.
  induction s as [|a s IH]; simpl.
  - constructor; [reflexivity | constructor].
  - destruct (Ascii.eqb a c) eqn:Ha.
    + constructor; [reflexivity | exact IH].
    + destruct (split c s) as [|w ws].
      * constructor; [simpl; now rewrite Ha | constructor].
      * apply Forall_cons in IH as [Hw Hws].
        constructor; [simpl; now rewrite Ha, Hw | exact Hws].
Qed.

Lemma flat_map_split_length (c : ascii) (l : list string) :
  length (flat_map (split c) l) = length l ->
  Forall (fun x => contains_char c x = false) l.
Proof.
  assert (forall l', length l' <= length (flat_map (split c) l')) as Hle.
  { induction l' as [|x l' IH]; simpl; [lia|].
    rewrite length_app, split_length. lia. }
  induction l as [|x l IH]; simpl; intros Hlen; [constructor|].
  rewrite length_app, split_length in Hlen. specialize (Hle l).
  constructor.
  - apply count_char_clean. lia.
  - apply IH. lia.
Qed.

(** X1: for a non-empty list, splitting the joined string gives the list
    back exactly when no item contains the separator. *)
Theorem split_join_roundtrip_iff (c : ascii) (l : list string) :
  l <> [] ->
  (split c (join (String c EmptyString) l) = l <->
   Forall (fun x => contains_char c x = false) l).
Proof.
  intros Hne. split.
  - intros Heq. apply flat_map_split_length.
    rewrite <- (split_join c l Hne). now rewrite Heq.
  - now apply split_join_clean.
Qed.

(** X2: joining the pieces of any string with the separator gives the string
    back. *)
Theorem join_split (c : ascii) (s : string) :
  join (String c EmptyString) (split c s) = s.
Proof.
  induction s as [|a s IH]; simpl; [reflexivity|].
  pose proof (split_nonempty c s) as Hne.
  destruct (Ascii.eqb a c) eqn:Ha.
  - apply Ascii.eqb_eq in Ha. subst a.
    destruct (split c s) as [|w ws]; [congruence|].
    change (join (String c EmptyString) (EmptyString :: w :: ws))
      with (String c (join (String c EmptyString) (w :: ws))).
    now rewrite IH.
  - destruct (split c s) as [|w ws]; [congruence|].
    destruct ws as [|w' ws].
    + simpl in *. now rewrite IH.
    + rewrite join_cons in IH |- *. rewrite <- IH. reflexivity.
Qed.

(** X3: no piece of a split contains the separator, and there is one more
    piece than there are separators. *)
Theorem split_pieces (c : ascii) (s : string) :
  Forall (fun x => contains_char c x = false) (split c s) /\
  length (split c s) = S (count_char c s).
Proof. split; [apply split_pieces_clean | apply split_length]. Qed.

(** ** More on the schema *)

Section MoreSchemaProperties.

Variable swin_model_dict_keys : list string.

Local Abbreviation schema := (fields swin_model_dict_keys).
Local Abbreviation supported := (SUPPORTED_BACKBONES swin_model_dict_keys).

Lemma supported_nonempty : supported <> [].
Proof.
  unfold SUPPORTED_BACKBONES. intros H.
  apply app_eq_nil in H as [_ H]. discriminate H.
Qed.

(** X4: when no Swin key contains a comma, the valid_options string of
    backbone decodes to exactly SUPPORTED_BACKBONES, in order. *)
Theorem backbone_options_decode :
  Forall (fun k => contains_char comma k = false) swin_model_dict_keys ->
  exists opts,
    kwarg (attr_init (backbone swin_model_dict_keys)) "valid_options"
      = Some (PStr opts) /\
    options_of opts = supported /\
    options_of opts = (swin_model_dict_keys ++ ["resnet_50"])%list.
Proof.
  intros Hclean. exists (join "," supported).
  split; [reflexivity|].
  assert (options_of (join "," supported) = supported) as Hdec.
  { unfold options_of, comma. apply split_join_clean; [apply supported_nonempty|].
    unfold SUPPORTED_BACKBONES. apply Forall_app. split; [exact Hclean|].
    constructor; [reflexivity | constructor]. }
  split; [exact Hdec | exact Hdec].
Qed.

(** X5: whatever the Swin table holds, SUPPORTED_BACKBONES ends with
    resnet_50, resnet_50 is one of the decoded options of backbone, and so
    is every supported name that contains no comma. *)
Theorem resnet_50_always_supported :
  last supported = Some "resnet_50" /\
  In "resnet_50"
     (options_of (join "," supported)) /\
  (forall k, In k supported -> contains_char comma k = false ->
     In k (options_of (join "," supported))).
Proof.
  assert (forall k, In k supported -> contains_char comma k = false ->
            In k (options_of (join "," supported))) as Hall
    by (intros k Hk Hc; unfold options_of, comma; now apply In_split_join).
  split; [|split].
  - unfold SUPPORTED_BACKBONES. apply last_snoc.
  - apply Hall; [|reflexivity].
    unfold SUPPORTED_BACKBONES. apply in_or_app. right. now left.
  - exact Hall.
Qed.

Lemma schema_well_typed_checked :
  forallb well_typedb schema = true.
Proof. vm_compute. reflexivity. Qed.

Lemma optionally_true (p : pyval -> bool) (o : option pyval) (v : pyval) :
  optionally p o = true -> o = Some v -> p v = true.
Proof. intros H ->. exact H. Qed.

Lemma builder_eqb_eq (x y : builder) : builder_eqb x y = true -> x = y.
Proof. destruct x, y; simpl; congruence. Qed.

Lemma declares_some (c : field_call) (k : string) (v : pyval) :
  kwarg c k = Some v -> declares c k = true.
Proof. unfold declares. now intros ->. Qed.

(** X6: every attribute of the class is well typed: its builder is the one
    for its annotation; its value and its default_value (if declared) have
    the annotated type; valid_min is a number of that type and valid_max is
    such a number or "inf"; bounds and math conditions are declared only on
    numeric fields and options only on string fields. *)
Theorem schema_well_typed (a : attr) :
  In a schema ->
  builder_for (attr_type a) = Some (call_builder (attr_init a)) /\
  (exists v, call_value (attr_init a) = Some v /\
             has_type (attr_type a) v = true) /\
  (forall dv, kwarg (attr_init a) "default_value" = Some dv ->
     has_type (attr_type a) dv = true) /\
  (forall lo, kwarg (attr_init a) "valid_min" = Some lo ->
     has_type (attr_type a) lo = true) /\
  (forall hi, kwarg (attr_init a) "valid_max" = Some hi ->
     hi = PStr "inf" \/ has_type (attr_type a) hi = true) /\
  (forall k v, In k ["valid_min"; "valid_max"; "math_cond"] ->
     kwarg (attr_init a) k = Some v ->
     is_numeric_builder (call_builder (attr_init a)) = true) /\
  (forall v, kwarg (attr_init a) "valid_options" = Some v ->
     call_builder (attr_init a) = STR_FIELD).
Proof.
  intros Hin. pose proof schema_well_typed_checked as Hall.
  rewrite forallb_forall in Hall. specialize (Hall a Hin).
  unfold well_typedb in Hall.
  repeat (apply andb_true_iff in Hall as [Hall ?]).
  rename Hall into Hb, H into Hopt, H0 into Hnum, H1 into Hmax, H2 into Hmin,
    H3 into Hdv, H4 into Hv.
  split; [|split; [|split; [|split; [|split; [|split]]]]].
  - destruct (builder_for (attr_type a)) as [b|]; [|discriminate].
    now rewrite (builder_eqb_eq _ _ Hb).
  - destruct (call_value (attr_init a)) as [v|]; [|discriminate]. now exists v.
  - intros dv E. exact (optionally_true _ _ _ Hdv E).
  - intros lo E. exact (optionally_true _ _ _ Hmin E).
  - intros hi E. pose proof (optionally_true _ _ _ Hmax E) as H.
    apply orb_true_iff in H as [H | H]; [left | now right].
    destruct hi; try discriminate H. apply String.eqb_eq in H. now subst.
  - intros k v Hk E. apply declares_some in E.
    destruct (is_numeric_builder _); [reflexivity|].
    simpl in Hk. destruct Hk as [<- | [<- | [<- | []]]]; rewrite E in Hnum;
      simpl in Hnum; rewrite ?orb_true_r in Hnum; discriminate Hnum.
  - intros v E. apply declares_some in E. rewrite E in Hopt.
    now apply builder_eqb_eq in Hopt.
Qed.

(** X7: the fields that declare no default_value are exactly the twelve
    listed, and a declared default_value differs from the declared value
    exactly for pretrained_backbone_path and log_scale. *)
Theorem default_value_against_value (a : attr) :
  In a schema ->
  (kwarg (attr_init a) "default_value" = None <->
   In (attr_name a)
      [ "interm_loss_coef"; "return_interm_indices"; "focal_alpha";
        "focal_gamma"; "clip_max_norm"; "dim_feedforward"; "dec_n_points";
        "enc_n_points"; "max_text_len"; "loss_types"; "backbone_names";
        "linear_proj_names" ]) /\
  (forall dv v,
     kwarg (attr_init a) "default_value" = Some dv ->
     call_value (attr_init a) = Some v ->
     (dv <> v <-> In (attr_name a) ["pretrained_backbone_path"; "log_scale"])).
Proof.
  intros Hin. each_field Hin; (split; [split|]).
  all: try (intros H; vm_compute in H; first
              [ discriminate H
              | repeat (destruct H as [H | H]; [discriminate H|]); contradiction H ]).
  all: try (intros _; vm_compute; first
              [ reflexivity | repeat (first [left; reflexivity | right]) ]).
  all: intros dv v Hdv Hv; vm_compute in Hdv; try discriminate Hdv.
  all: vm_compute in Hv; injection Hdv as <-; injection Hv as <-.
  all: split.
  all: try (intros _; vm_compute;
            solve [repeat (first [left; reflexivity | right])]).
  all: try (intros _; discriminate).
  all: try (intros H; exfalso; apply H; reflexivity).
  all: intros H; vm_compute in H;
       repeat (destruct H as [H | H]; [discriminate H|]); contradiction H.
Qed.

End MoreSchemaProperties.

(** ** Keywords, bounds and display names *)

Section SchemaMetadata.

Variable swin_model_dict_keys : list string.

Local Abbreviation schema := (fields swin_model_dict_keys).

Lemma keywords_checked : forallb keywords_okb schema = true.
Proof. vm_compute. reflexivity. Qed.

Lemma builder_eqb_refl (b : builder) : builder_eqb b b = true.
Proof. now destruct b. Qed.

(** X8: every builder call of the class uses only the twelve known
    keywords, none of them twice; a LIST_FIELD call passes arrList and no
    value, every other call passes value and no arrList. *)
Theorem builder_calls_keywords (a : attr) :
  In a schema ->
  (forall k v, In (k, v) (call_kwargs (attr_init a)) -> In k builder_keywords) /\
  NoDup (map fst (call_kwargs (attr_init a))) /\
  (call_builder (attr_init a) = LIST_FIELD ->
     kwarg (attr_init a) "arrList" <> None /\
     kwarg (attr_init a) "value" = None) /\
  (call_builder (attr_init a) <> LIST_FIELD ->
     kwarg (attr_init a) "value" <> None /\
     kwarg (attr_init a) "arrList" = None).
Proof.
  intros Hin. pose proof keywords_checked as Hall.
  rewrite forallb_forall in Hall. specialize (Hall a Hin).
  unfold keywords_okb in Hall.
  repeat (apply andb_true_iff in Hall as [Hall ?]).
  rename Hall into Hkw, H into Hval, H0 into Harr, H1 into Hnd.
  apply Bool.eqb_prop in Hval, Harr. unfold declares in Hval, Harr.
  split; [|split; [|split]].
  - intros k v Hk. rewrite forallb_forall in Hkw. specialize (Hkw _ Hk).
    apply existsb_exists in Hkw as [k' [Hk' E]].
    apply String.eqb_eq in E. simpl in E. now subst.
  - exact (bool_decide_eq_true_1 _ Hnd).
  - intros Hb. rewrite Hb in Hval, Harr. simpl in Hval, Harr.
    destruct (kwarg (attr_init a) "arrList"); [|discriminate].
    destruct (kwarg (attr_init a) "value"); [discriminate|].
    split; [discriminate | reflexivity].
  - intros Hb.
    assert (builder_eqb (call_builder (attr_init a)) LIST_FIELD = false) as E.
    { destruct (builder_eqb _ _) eqn:E; [|reflexivity].
      apply builder_eqb_eq in E. contradiction. }
    rewrite E in Hval, Harr. simpl in Hval, Harr.
    destruct (kwarg (attr_init a) "arrList"); [discriminate|].
    destruct (kwarg (attr_init a) "value"); [|discriminate].
    split; [discriminate | reflexivity].
Qed.

(** X9: a finite upper bound is declared by num_feature_levels and
    dropout_ratio only; every other declared valid_max is "inf". *)
Theorem finite_upper_bounds (a : attr) :
  In a schema ->
  forall hi, kwarg (attr_init a) "valid_max" = Some hi ->
    (hi <> PStr "inf" <->
     In (attr_name a) ["num_feature_levels"; "dropout_ratio"]).
Proof.
  intros Hin hi Hhi. each_field Hin; vm_compute in Hhi; try discriminate Hhi.
  all: injection Hhi as <-; split.
  all: try (intros _; vm_compute;
            solve [repeat (first [left; reflexivity | right])]).
  all: try (intros _; discriminate).
  all: try (intros H; exfalso; apply H; reflexivity).
  all: intros H; vm_compute in H;
       repeat (destruct H as [H | H]; [discriminate H|]); contradiction H.
Qed.

Lemma display_names_checked :
  forallb (fun a =>
    forallb (fun b =>
      implb (shares_display_name a b)
            (String.eqb (attr_name a) (attr_name b) || is_train_backbone_pair a b))
      schema) schema = true.
Proof. vm_compute. reflexivity. Qed.

(** X10: display names are not unique: aux_loss and train_backbone both
    declare "Train backbone"; no other two fields share a display name. *)
Theorem display_name_shared_once :
  display_name_of aux_loss = Some "Train backbone" /\
  display_name_of train_backbone = Some "Train backbone" /\
  In aux_loss schema /\ In train_backbone schema /\
  (forall a b d, In a schema -> In b schema ->
     display_name_of a = Some d -> display_name_of b = Some d ->
     attr_name a <> attr_name b ->
     (attr_name a = "aux_loss" /\ attr_name b = "train_backbone") \/
     (attr_name a = "train_backbone" /\ attr_name b = "aux_loss")).
Proof.
  split; [reflexivity|]. split; [reflexivity|].
  split; [unfold fields; simpl; tauto|]. split; [unfold fields; simpl; tauto|].
  intros a b d Ha Hb Hda Hdb Hne.
  pose proof display_names_checked as Hall.
  rewrite forallb_forall in Hall. specialize (Hall a Ha).
  rewrite forallb_forall in Hall. specialize (Hall b Hb).
  unfold shares_display_name in Hall. rewrite Hda, Hdb, String.eqb_refl in Hall.
  simpl in Hall. apply orb_true_iff in Hall as [E | E].
  - apply String.eqb_eq in E. contradiction.
  - unfold is_train_backbone_pair in E.
    apply orb_true_iff in E as [E | E];
      apply andb_true_iff in E as [E1 E2];
      apply String.eqb_eq in E1, E2; tauto.
Qed.

End SchemaMetadata.

(** ** Construction, generally *)

(** X11: after a successful construction of GDINOModelConfig the instance
    dictionary holds exactly the declared fields, 46 of them, and reading a
    declared field returns a value. *)
Theorem built_record_holds_the_fields (swin_model_dict_keys : list string)
    (kwargs : list (string * pyval)) (o : instance) :
  dataclass_init (GDINOModelConfig swin_model_dict_keys) kwargs = inr o ->
  (forall name, is_Some (o !! name) <->
     In name (field_names (GDINOModelConfig swin_model_dict_keys))) /\
  size o = 46 /\
  (forall a, In a (fields swin_model_dict_keys) ->
     exists v, getattr o (attr_name a) = inr v).
Proof.
  intros Hinit.
  pose proof (fun name => built_record_dom swin_model_dict_keys kwargs o name Hinit)
    as Hdom.
  split; [exact Hdom|]. split.
  - assert (dom o =
            list_to_set (field_names (GDINOModelConfig swin_model_dict_keys)))
      as Hset.
    { apply set_eq. intros name.
      rewrite elem_of_dom, elem_of_list_to_set, list_elem_of_In. apply Hdom. }
    rewrite <- size_dom, Hset, size_list_to_set.
    + vm_compute. reflexivity.
    + apply field_names_unique.
  - intros a Hin. unfold getattr.
    assert (is_Some (o !! attr_name a)) as [v Hv]
      by (apply Hdom; now apply field_name_declared).
    exists v. now rewrite Hv.
Qed.

(** X13: a keyword argument for a field of GDINOModelConfig becomes the
    value of that field as it is: construction succeeds whenever all
    keywords name fields, and it checks no bound. *)
Theorem init_takes_override_unchecked (swin_model_dict_keys : list string)
    (kwargs : list (string * pyval)) (a : attr) (v : pyval) :
  In a (fields swin_model_dict_keys) ->
  assoc (attr_name a) kwargs = Some v ->
  forallb (fun kv => known_name (GDINOModelConfig swin_model_dict_keys) (fst kv))
          kwargs = true ->
  exists o,
    dataclass_init (GDINOModelConfig swin_model_dict_keys) kwargs = inr o /\
    getattr o (attr_name a) = inr v.
Proof.
  intros Hin Hv Hknown.
  destruct (load_config_total swin_model_dict_keys kwargs Hknown) as [o Ho].
  exists o. split; [exact Ho|]. unfold getattr.
  now rewrite (load_config_lookup swin_model_dict_keys kwargs o Ho a Hin), Hv.
Qed.

(** ** The further properties at concrete inputs *)

Lemma in_schema_num_feature_levels :
  In num_feature_levels (fields sample_swin_keys).
Proof. unfold fields. simpl. tauto. Defined.

Lemma in_schema_return_interm_indices :
  In return_interm_indices (fields sample_swin_keys).
Proof. unfold fields. simpl. tauto. Defined.

Lemma in_schema_aux_loss : In aux_loss (fields sample_swin_keys).
Proof. unfold fields. simpl. tauto. Defined.

Lemma in_schema_train_backbone : In train_backbone (fields sample_swin_keys).
Proof. unfold fields. simpl. tauto. Defined.

Lemma sample_swin_keys_clean :
  Forall (fun k => contains_char comma k = false) sample_swin_keys.
Proof. constructor; [reflexivity | constructor]. Defined.

Lemma split_join_roundtrip_iff_witness :
  ["sa"; "ca_label"; "ca_content"] <> [] /\
  split comma (join "," ["sa"; "ca_label"; "ca_content"])
    = ["sa"; "ca_label"; "ca_content"].
Proof.
  assert (["sa"; "ca_label"; "ca_content"] <> []) as Hne by discriminate.
  split; [exact Hne|].
  apply (proj2 (split_join_roundtrip_iff comma _ Hne)).
  repeat constructor.
Defined.

Lemma backbone_options_decode_witness :
  Forall (fun k => contains_char comma k = false) sample_swin_keys /\
  exists opts,
    kwarg (attr_init (backbone sample_swin_keys)) "valid_options"
      = Some (PStr opts) /\
    options_of opts = SUPPORTED_BACKBONES sample_swin_keys /\
    options_of opts = ["swin_tiny_224_1k"; "resnet_50"].
Proof.
  split; [exact sample_swin_keys_clean|].
  exact (backbone_options_decode sample_swin_keys sample_swin_keys_clean).
Defined.

Lemma resnet_50_always_supported_witness :
  In "swin_tiny_224_1k" (SUPPORTED_BACKBONES sample_swin_keys) /\
  In "swin_tiny_224_1k"
     (options_of (join "," (SUPPORTED_BACKBONES sample_swin_keys))).
Proof.
  assert (In "swin_tiny_224_1k" (SUPPORTED_BACKBONES sample_swin_keys)) as Hin
    by (simpl; tauto).
  split; [exact Hin|].
  apply (proj2 (proj2 (resnet_50_always_supported sample_swin_keys))
               "swin_tiny_224_1k" Hin).
  reflexivity.
Defined.

Lemma schema_well_typed_witness :
  In dropout_ratio (fields sample_swin_keys) /\
  builder_for (attr_type dropout_ratio)
    = Some (call_builder (attr_init dropout_ratio)).
Proof.
  split; [exact in_schema_dropout_ratio|].
  apply (schema_well_typed sample_swin_keys dropout_ratio in_schema_dropout_ratio).
Defined.

Lemma default_value_against_value_witness :
  In log_scale (fields sample_swin_keys) /\
  kwarg (attr_init log_scale) "default_value" = Some (PStr "none") /\
  call_value (attr_init log_scale) = Some PNone /\
  PStr "none" <> PNone.
Proof.
  split; [exact in_schema_log_scale|]. split; [reflexivity|]. split; [reflexivity|].
  apply (proj2 (default_value_against_value sample_swin_keys log_scale
                  in_schema_log_scale)
               (PStr "none") PNone eq_refl eq_refl).
  simpl. tauto.
Defined.

Lemma builder_calls_keywords_witness :
  In return_interm_indices (fields sample_swin_keys) /\
  call_builder (attr_init return_interm_indices) = LIST_FIELD /\
  kwarg (attr_init return_interm_indices) "value" = None.
Proof.
  split; [exact in_schema_return_interm_indices|]. split; [reflexivity|].
  apply (builder_calls_keywords sample_swin_keys return_interm_indices
           in_schema_return_interm_indices).
  reflexivity.
Defined.

Lemma finite_upper_bounds_witness :
  In dropout_ratio (fields sample_swin_keys) /\
  kwarg (attr_init dropout_ratio) "valid_max" = Some (PFloat 1.0) /\
  (PFloat 1.0 <> PStr "inf" <->
   In (attr_name dropout_ratio) ["num_feature_levels"; "dropout_ratio"]).
Proof.
  split; [exact in_schema_dropout_ratio|]. split; [reflexivity|].
  exact (finite_upper_bounds sample_swin_keys dropout_ratio
           in_schema_dropout_ratio (PFloat 1.0) eq_refl).
Defined.

Lemma display_name_shared_once_witness :
  In aux_loss (fields sample_swin_keys) /\
  In train_backbone (fields sample_swin_keys) /\
  attr_name aux_loss <> attr_name train_backbone /\
  ((attr_name aux_loss = "aux_loss" /\ attr_name train_backbone = "train_backbone") \/
   (attr_name aux_loss = "train_backbone" /\ attr_name train_backbone = "aux_loss")).
Proof.
  assert (attr_name aux_loss <> attr_name train_backbone) as Hne by discriminate.
  split; [exact in_schema_aux_loss|]. split; [exact in_schema_train_backbone|].
  split; [exact Hne|].
  exact (proj2 (proj2 (proj2 (proj2 (display_name_shared_once sample_swin_keys))))
           aux_loss train_backbone "Train backbone"
           in_schema_aux_loss in_schema_train_backbone eq_refl eq_refl Hne).
Defined.

Lemma built_record_holds_the_fields_witness :
  exists o,
    dataclass_init (GDINOModelConfig sample_swin_keys) [] = inr o /\
    size o = 46.
Proof.
  destruct (load_config_total sample_swin_keys [] eq_refl) as [o Ho].
  exists o. split; [exact Ho|].
  apply (built_record_holds_the_fields sample_swin_keys [] o Ho).
Defined.

Lemma init_takes_override_unchecked_witness :
  In num_feature_levels (fields sample_swin_keys) /\
  in_boundsb (attr_init num_feature_levels) (PInt 100) = false /\
  exists o,
    dataclass_init (GDINOModelConfig sample_swin_keys)
      [("num_feature_levels", PInt 100)] = inr o /\
    getattr o (attr_name num_feature_levels) = inr (PInt 100).
Proof.
  split; [exact in_schema_num_feature_levels|]. split; [reflexivity|].
  exact (init_takes_override_unchecked sample_swin_keys
           [("num_feature_levels", PInt 100)] num_feature_levels (PInt 100)
           in_schema_num_feature_levels eq_refl eq_refl).
Defined.
